(** * Training loop of [src/training/trainer.py]

    A shallow embedding of [check_data_types], [check_for_nan_inf],
    [evaluate_model] and [train_model], and the properties of the
    training-loop contract that hold (or fail) on them.

    Python floats are IEEE 754 binary64 values ([spec_float]); pandas columns
    carry their dtype; torch tensors live in a store of storages, so that two
    references to one storage see each other's in-place updates. The numerical
    kernels of torch, numpy and scikit-learn are a [Backend] the development
    is parametric in. *)

From Stdlib Require Import ZArith Floats.SpecFloat.
From stdpp Require Import base list strings.

Local Open Scope Z_scope.

(** ** Python floats *)

Module PyFloat.

Definition float := spec_float.

(** [float("inf")] *)
Definition inf : float := S754_infinity false.
Definition nan : float := S754_nan.

(** [math.isnan], [torch.isnan], [numpy.isnan] *)
Definition isnan (f : float) : bool :=
  match f with S754_nan => true | _ => false end.

(** [math.isinf], [torch.isinf]: either infinity *)
Definition isinf (f : float) : bool :=
  match f with S754_infinity _ => true | _ => false end.

(** [numpy.isfinite] on one float *)
Definition isfinite (f : float) : bool :=
  match f with S754_zero _ | S754_finite _ _ _ => true | _ => false end.

(** [a < b]: false as soon as one side is NaN *)
Definition lt (a b : float) : bool := SFltb a b.

(** The binary64 value of an integer. *)
Definition of_Z (z : Z) : float := binary_normalize 53 1024 z 0 false.

End PyFloat.
Export PyFloat.

(** ** Exceptions *)

(** The texts of the [ValueError]s the module raises itself. *)
Inductive message :=
| NonNumericColumn (column : string)   (* "Non-numeric column found: {column}. ..." *)
| NonNumericTarget                     (* "Target variable has non-numeric dtype. ..." *)
| NaNValuesDetected                    (* "NaN values detected in the input data." *)
| InfiniteValuesDetected               (* "Infinite values detected in the input data." *)
| NaNOrInfInLoss (epoch : nat).        (* "NaN or Inf detected in loss at epoch {epoch}" *)

Inductive exn :=
| ValueError (m : message)
| TypeError (what : string)            (* raised by a numpy ufunc *)
| UnboundLocalError (name : string)    (* a local read before any assignment *)
| ZeroDivisionError
| LibraryError (what : string).        (* raised inside torch or scikit-learn *)

Inductive result (A : Type) :=
| OK (a : A)
| Raise (e : exn).
Arguments OK {A} a.
Arguments Raise {A} e.

Definition rbind {A B} (r : result A) (k : A -> result B) : result B :=
  match r with
  | OK a => k a
  | Raise e => Raise e
  end.

(** The outcome of a call into torch or scikit-learn: a value, or an
    exception of the library's own. *)
Inductive outcome (A : Type) :=
| Returned (a : A)
| Failed (what : string).
Arguments Returned {A} a.
Arguments Failed {A} what.

Definition of_outcome {A} (o : outcome A) : result A :=
  match o with
  | Returned a => OK a
  | Failed what => Raise (LibraryError what)
  end.

(** The specification's names for the failures of the module. The code has
    one exception class, [ValueError]; the raise site tells them apart. *)
Definition DataTypeError (e : exn) : bool :=
  match e with
  | ValueError (NonNumericColumn _) | ValueError NonNumericTarget => true
  | _ => false
  end.

Definition DataIntegrityError (e : exn) : bool :=
  match e with
  | ValueError NaNValuesDetected | ValueError InfiniteValuesDetected => true
  | _ => false
  end.

Definition NumericalInstabilityError (e : exn) : bool :=
  match e with
  | ValueError (NaNOrInfInLoss _) => true
  | _ => false
  end.

(** ** Tables *)

(** A Python object held in an [object] column. *)
Inductive pyobj :=
| PyFloat (f : float)
| PyStr (s : string)
| PyNone.

(** A pandas column. The constructor fixes the dtype, so a [float64] column
    holds floats only and an [int64] column cannot hold NaN. [StringSeries]
    is the string extension dtype, [None] standing for [pd.NA]. *)
Inductive Series :=
| FloatSeries (vals : list float)
| IntSeries (vals : list Z)
| ObjectSeries (vals : list pyobj)
| StringSeries (vals : list (option string)).

(** [X.columns] in order, each name with [X[column]]. *)
Definition DataFrame := list (string * Series).

(** [s.dtype], by its name: comparing a dtype with a string compares by name. *)
Definition dtype (s : Series) : string :=
  match s with
  | FloatSeries _ => "float64"
  | IntSeries _ => "int64"
  | ObjectSeries _ => "object"
  | StringSeries _ => "string"
  end.

(** The element of a numeric numpy array. A frame mixing [int64] and
    [float64] columns is upcast to [float64]; the integers are kept as they
    are, every [int64] being a finite [float64]. *)
Inductive number :=
| NFloat (f : float)
| NInt (z : Z).

Inductive ndarray :=
| numeric_array (nd : nat) (data : list number)
| object_array (nd : nat) (data : list pyobj).

(** [len(a.shape)] *)
Definition array_ndim (a : ndarray) : nat :=
  match a with numeric_array nd _ | object_array nd _ => nd end.

Definition opt_to_pyobj (o : option string) : pyobj :=
  match o with Some s => PyStr s | None => PyNone end.

(** [s.values], one-dimensional *)
Definition series_values (s : Series) : ndarray :=
  match s with
  | FloatSeries vals => numeric_array 1 (NFloat <$> vals)
  | IntSeries vals => numeric_array 1 (NInt <$> vals)
  | ObjectSeries vals => object_array 1 vals
  | StringSeries vals => object_array 1 (opt_to_pyobj <$> vals)
  end.

Definition number_to_pyobj (n : number) : pyobj :=
  match n with NFloat f => PyFloat f | NInt z => PyFloat (of_Z z) end.

Definition array_objects (a : ndarray) : list pyobj :=
  match a with
  | numeric_array _ data => number_to_pyobj <$> data
  | object_array _ data => data
  end.

(** [X.values]: one two-dimensional array for the whole frame, numeric when
    every column is, an array of objects as soon as one column is not. *)
Fixpoint frame_values (X : DataFrame) : ndarray :=
  match X with
  | [] => numeric_array 2 []
  | (_, s) :: rest =>
      match series_values s, frame_values rest with
      | numeric_array _ d, numeric_array _ ds => numeric_array 2 (d ++ ds)
      | a, b => object_array 2 (array_objects a ++ array_objects b)
      end
  end.

Definition pyobj_isnull (o : pyobj) : bool :=
  match o with
  | PyFloat f => isnan f
  | PyStr _ => false
  | PyNone => true
  end.

(** [s.isnull().values] *)
Definition isnull (s : Series) : list bool :=
  match s with
  | FloatSeries vals => isnan <$> vals
  | IntSeries vals => (fun _ => false) <$> vals
  | ObjectSeries vals => pyobj_isnull <$> vals
  | StringSeries vals => (fun o => bool_decide (o = None)) <$> vals
  end.

(** [X.isnull().values] *)
Definition frame_isnull (X : DataFrame) : list bool :=
  concat ((fun c => isnull c.2) <$> X).

(** [a.any()] and [a.all()] on an array of booleans *)
Definition any (bs : list bool) : bool := existsb id bs.
Definition all (bs : list bool) : bool := forallb id bs.

Definition number_isfinite (n : number) : bool :=
  match n with NFloat f => isfinite f | NInt _ => true end.

(** [np.isfinite(a)]: elementwise on a numeric array; the ufunc has no loop
    for arrays of objects. *)
Definition np_isfinite (a : ndarray) : result (list bool) :=
  match a with
  | numeric_array _ data => OK (number_isfinite <$> data)
  | object_array _ _ => Raise (TypeError "ufunc 'isfinite' not supported for the input types")
  end.

(** ** The validator *)

Module Validator.

(** The loop of [check_data_types] over [X.columns]. *)
Fixpoint check_columns (X : DataFrame) : result unit :=
  match X with
  | [] => OK tt
  | (column, s) :: rest =>
      if String.eqb (dtype s) "object"
      then Raise (ValueError (NonNumericColumn column))
      else check_columns rest
  end.

Definition check_data_types (X : DataFrame) (y : Series) : result unit :=
  rbind (check_columns X) (fun _ =>
  if String.eqb (dtype y) "object"
  then Raise (ValueError NonNumericTarget)
  else OK tt).

Definition check_for_nan_inf (X : DataFrame) (y : Series) : result unit :=
  if any (frame_isnull X) || any (isnull y)
  then Raise (ValueError NaNValuesDetected)
  else
    rbind (np_isfinite (frame_values X)) (fun X_finite =>
    if negb (all X_finite)
    then Raise (ValueError InfiniteValuesDetected)
    else
      rbind (np_isfinite (series_values y)) (fun y_finite =>
      if negb (all y_finite)
      then Raise (ValueError InfiniteValuesDetected)
      else OK tt)).

(** Lines 86-87 of [train_model]: the two checks, in this order. *)
Definition validate (X : DataFrame) (y : Series) : result unit :=
  rbind (check_data_types X y) (fun _ => check_for_nan_inf X y).

End Validator.
Export Validator.

(** ** The numerical libraries *)

Inductive Device := cpu | cuda.

#[global] Instance Device_eq_dec : EqDecision Device.
Proof. solve_decision. Defined.

(** What torch, numpy and scikit-learn compute. A call that takes user data
    may raise; the arithmetic on tensors is a function of its arguments. The
    forward pass of the model is a function of the parameter values and of
    the input in evaluation mode only: in training mode the training-only
    layers (dropout) draw from torch's random number generator. *)
Record Backend := {
  Tensor : Type;      (* the contents of one parameter tensor *)
  Data : Type;        (* a float tensor of samples or targets *)
  Output : Type;      (* what the model returns for a [Data] *)
  Grads : Type;       (* the gradients of all parameters *)
  AdamState : Type;   (* the moment estimates of [optim.Adam] *)
  Dataset : Type;
  Loader : Type;
  Generator : Type;   (* the state of torch's random number generator *)
  (* torch.cuda.is_available() *)
  cuda_is_available : bool;
  (* torch.FloatTensor(a).to(device) *)
  FloatTensor : ndarray -> outcome Data;
  (* len(t.shape) and t.unsqueeze(1) *)
  ndim : Data -> nat;
  unsqueeze1 : Data -> Data;
  (* TensorDataset(X, y) and DataLoader(ds, batch_size=n, shuffle=True) *)
  TensorDataset : Data -> Data -> outcome Dataset;
  DataLoader : Dataset -> Z -> outcome Loader;
  (* len(loader), and the batches of its n-th traversal as the shuffle draws them *)
  loader_len : Loader -> Z;
  loader_iter : Loader -> nat -> list (Data * Data);
  (* model(x), given the parameter values: in evaluation mode (None), or in
     training mode with the generator in the state given *)
  forward : option Generator -> list Tensor -> Data -> outcome Output;
  (* the generator after the draws of a forward pass in training mode *)
  drawn : Generator -> list Tensor -> Data -> Generator;
  (* outputs.view(-1) *)
  view_flat : Output -> Output;
  (* nn.MSELoss()(outputs, batch_y), as the float it holds *)
  MSELoss : Output -> Data -> float;
  (* loss.backward(): the gradients the parameters receive, through the
     graph of a forward pass in the mode given *)
  backward : option Generator -> list Tensor -> Data -> Data -> Grads;
  (* optim.Adam(model.parameters(), lr=.., weight_decay=..) and optimizer.step() *)
  Adam : float -> float -> AdamState;
  Adam_step : AdamState -> list Tensor -> Grads -> AdamState * list Tensor;
  (* sklearn.metrics and np.sqrt *)
  mean_squared_error : Data -> Output -> outcome float;
  r2_score : Data -> Output -> outcome float;
  np_sqrt : float -> float
}.

(** ** The interpreter state *)

Section Trainer.

Context (B : Backend).

(** A state dict: parameter names with the storages their tensors use. *)
Definition state_dict_t := list (string * nat).

(** What the run did, in order. *)
Inductive Event :=
| DeviceResolved (d : Device)
| ModelMoved (d : Device)
| TensorBuilt (a : ndarray)
| ZeroGrad
| ForwardPass
| BackwardPass
| OptimizerStep
| MetricsComputed (targets : Data B) (predictions : Output B)
| Progress (epoch : Z) (avg_loss val_mse : float)
| StateLoaded.

(** The validation MSE of an epoch with the parameter values of that moment. *)
Record EpochRecord := {
  rec_epoch : nat;
  rec_val_mse : float;
  rec_values : list (string * option (Tensor B))
}.

Record World := mkWorld {
  heap : list (Tensor B);          (* tensor storages; a reference is an index *)
  parameters : state_dict_t;       (* the model's parameters and their storages *)
  training : bool;                 (* model.training *)
  model_device : Device;
  grad : option (Grads B);         (* the parameters' .grad *)
  optimizer : option (AdamState B);
  generator : Generator B;         (* torch's default generator *)
  trace : list Event;              (* ghost: the operations executed *)
  history : list EpochRecord       (* ghost: one record per evaluated epoch *)
}.

Definition M (A : Type) : Type := World -> World * result A.

Definition ret {A} (a : A) : M A := fun w => (w, OK a).

Definition bind {A C} (m : M A) (k : A -> M C) : M C :=
  fun w =>
    match m w with
    | (w', OK a) => k a w'
    | (w', Raise e) => (w', Raise e)
    end.

Definition raise {A} (e : exn) : M A := fun w => (w, Raise e).

Definition lift {A} (r : result A) : M A := fun w => (w, r).

Definition emit (e : Event) : M unit :=
  fun w => (mkWorld (heap w) (parameters w) (training w) (model_device w)
              (grad w) (optimizer w) (generator w) (trace w ++ [e]) (history w), OK tt).

Definition record_epoch (r : EpochRecord) : M unit :=
  fun w => (mkWorld (heap w) (parameters w) (training w) (model_device w)
              (grad w) (optimizer w) (generator w) (trace w) (history w ++ [r]), OK tt).

Definition set_heap (h : list (Tensor B)) (w : World) : World :=
  mkWorld h (parameters w) (training w) (model_device w)
    (grad w) (optimizer w) (generator w) (trace w) (history w).

Definition set_generator (g : Generator B) (w : World) : World :=
  mkWorld (heap w) (parameters w) (training w) (model_device w)
    (grad w) (optimizer w) g (trace w) (history w).

Definition set_training (b : bool) : M unit :=
  fun w => (mkWorld (heap w) (parameters w) b (model_device w)
              (grad w) (optimizer w) (generator w) (trace w) (history w), OK tt).

Definition set_grad (g : option (Grads B)) : M unit :=
  fun w => (mkWorld (heap w) (parameters w) (training w) (model_device w)
              g (optimizer w) (generator w) (trace w) (history w), OK tt).

Definition set_optimizer (o : AdamState B) : M unit :=
  fun w => (mkWorld (heap w) (parameters w) (training w) (model_device w)
              (grad w) (Some o) (generator w) (trace w) (history w), OK tt).

End Trainer.

Arguments DeviceResolved {B} d.
Arguments ModelMoved {B} d.
Arguments TensorBuilt {B} a.
Arguments ZeroGrad {B}.
Arguments ForwardPass {B}.
Arguments BackwardPass {B}.
Arguments OptimizerStep {B}.
Arguments MetricsComputed {B} targets predictions.
Arguments Progress {B} epoch avg_loss val_mse.
Arguments StateLoaded {B}.
Arguments rec_epoch {B} e.
Arguments rec_val_mse {B} e.
Arguments rec_values {B} e.
Arguments Build_EpochRecord {B} rec_epoch rec_val_mse rec_values.
Arguments mkWorld {B} heap parameters training model_device grad optimizer generator
  trace history.
Arguments heap {B} w.
Arguments parameters {B} w.
Arguments training {B} w.
Arguments model_device {B} w.
Arguments grad {B} w.
Arguments optimizer {B} w.
Arguments generator {B} w.
Arguments trace {B} w.
Arguments history {B} w.
Arguments emit {B} e.
Arguments record_epoch {B} r.
Arguments set_heap {B} h w.
Arguments set_generator {B} g w.
Arguments set_training {B} b.
Arguments set_grad {B} g.
Arguments set_optimizer {B} o.
Arguments ret {B A} a.
Arguments bind {B A C} m k.
Arguments raise {B A} e.
Arguments lift {B A} r.

Notation "'let*' x ':=' m 'in' k" := (bind m (fun x => k))
  (at level 10, x pattern, m at level 100, k at level 200).
Notation "'run' m 'then' k" := (bind m (fun _ => k))
  (at level 10, m at level 100, k at level 200).

(** ** The model object and the optimizer *)

Section Model.

Context {B : Backend}.

(** The values a state dict refers to, read from the store. *)
Definition state_values (h : list (Tensor B)) (sd : state_dict_t)
  : list (string * option (Tensor B)) :=
  (fun p => (p.1, h !! p.2)) <$> sd.

(** The parameter values, in the order of [model.parameters()]. *)
Definition param_values (w : World B) : list (Tensor B) :=
  omap snd (state_values (heap w) (parameters w)).

(** [model.state_dict()]: a new mapping whose tensors are detached views
    of the parameters, sharing their storages. No value is copied. *)
Definition state_dict : M B state_dict_t :=
  fun w => (w, OK (parameters w)).

(** Moving a parameter to another device gives it a new storage there. *)
Fixpoint move_parameters (ps : state_dict_t) (h : list (Tensor B))
  : state_dict_t * list (Tensor B) :=
  match ps with
  | [] => ([], h)
  | (name, l) :: rest =>
      match h !! l with
      | Some v =>
          let '(rest', h') := move_parameters rest (h ++ [v]) in
          ((name, length h) :: rest', h')
      | None =>
          let '(rest', h') := move_parameters rest h in
          ((name, l) :: rest', h')
      end
  end.

(** [model.to(device)]: nothing moves when the model is on [d] already. *)
Definition model_to (d : Device) : M B unit :=
  fun w =>
    if decide (model_device w = d)
    then (w, OK tt)
    else
      let '(ps, h) := move_parameters (parameters w) (heap w) in
      (mkWorld h ps (training w) d (grad w) (optimizer w) (generator w)
         (trace w ++ [ModelMoved d]) (history w), OK tt).

(** [model.train()] and [model.eval()] *)
Definition model_train : M B unit := set_training true.
Definition model_eval : M B unit := set_training false.

(** The mode of a forward pass of the model as it is: evaluation, or
    training with the generator as it stands. *)
Definition forward_mode (w : World B) : option (Generator B) :=
  if training w then Some (generator w) else None.

(** What a forward pass on [x] leaves of the generator: in training mode the
    draws are consumed, in evaluation mode none is made. *)
Definition draw (x : Data B) (w : World B) : World B :=
  if training w
  then set_generator (drawn B (generator w) (param_values w) x) w
  else w.

(** [model(x)] *)
Definition model_call (x : Data B) : M B (Output B) :=
  fun w =>
    match forward B (forward_mode w) (param_values w) x with
    | Returned o => (fst (emit ForwardPass (draw x w)), OK o)
    | Failed what => (draw x w, Raise (LibraryError what))
    end.

(** The copies of [load_state_dict]: each parameter of the model receives,
    in place, the contents of the tensor the state dict has under its name. *)
Fixpoint copy_parameters (ps : state_dict_t) (sd : state_dict_t)
    (h : list (Tensor B)) : result (list (Tensor B)) :=
  match ps with
  | [] => OK h
  | (name, dst) :: rest =>
      match list_find (fun p => p.1 = name) sd with
      | None => Raise (LibraryError "Missing key(s) in state_dict")
      | Some (_, (_, src)) =>
          match h !! src with
          | None => Raise (LibraryError "dangling tensor")
          | Some v => copy_parameters rest sd (<[dst := v]> h)
          end
      end
  end.

(** [model.load_state_dict(sd)] *)
Definition load_state_dict (sd : state_dict_t) : M B unit :=
  fun w =>
    match copy_parameters (parameters w) sd (heap w) with
    | OK h => emit StateLoaded (set_heap h w)
    | Raise e => (w, Raise e)
    end.

(** [optimizer.zero_grad()] *)
Definition zero_grad : M B unit :=
  run set_grad None then emit ZeroGrad.

(** [loss.backward()] for the loss of [model(batch_X)] against [batch_y],
    the forward pass having run in [mode] *)
Definition loss_backward (mode : option (Generator B)) (batch_X batch_y : Data B)
  : M B unit :=
  fun w =>
    (run set_grad (Some (backward B mode (param_values w) batch_X batch_y))
     then emit BackwardPass) w.

(** The in-place update of the parameters by [optimizer.step()]. *)
Fixpoint write_parameters (ps : state_dict_t) (vals : list (Tensor B))
    (h : list (Tensor B)) : list (Tensor B) :=
  match ps, vals with
  | (_, l) :: rest, v :: vals' => write_parameters rest vals' (<[l := v]> h)
  | _, _ => h
  end.

(** [optimizer.step()]: parameters without a gradient are skipped. *)
Definition optimizer_step : M B unit :=
  fun w =>
    match optimizer w, grad w with
    | Some o, Some g =>
        let '(o', vals) := Adam_step B o (param_values w) g in
        emit OptimizerStep
          (mkWorld (write_parameters (parameters w) vals (heap w)) (parameters w)
             (training w) (model_device w) (grad w) (Some o') (generator w)
             (trace w) (history w))
    | _, _ => emit OptimizerStep w
    end.

End Model.

(** ** The evaluator and the trainer *)

Section Training.

Context {B : Backend}.

(** [torch.device("cuda" if torch.cuda.is_available() else "cpu")] when no
    device is given *)
Definition resolve_device (device : option Device) : Device :=
  match device with
  | Some d => d
  | None => if cuda_is_available B then cuda else cpu
  end.

(** [torch.FloatTensor(a).to(device)] *)
Definition to_tensor (a : ndarray) : M B (Data B) :=
  let* t := lift (of_outcome (FloatTensor B a)) in
  run emit (TensorBuilt a) then
  ret t.

Definition evaluate_model (X_val : DataFrame) (y_val : Series)
    (device : option Device) : M B (float * float * float) :=
  let device := resolve_device device in
  run model_to device then
  let* X_val_tensor := to_tensor (frame_values X_val) in
  let* y_val_tensor := to_tensor (series_values y_val) in
  run model_eval then
  (* with torch.no_grad(): *)
  let* predictions := model_call X_val_tensor in
  let predictions := view_flat B predictions in
  run emit (MetricsComputed y_val_tensor predictions) then
  let* mse := lift (of_outcome (mean_squared_error B y_val_tensor predictions)) in
  let rmse := np_sqrt B mse in
  let* r2 := lift (of_outcome (r2_score B y_val_tensor predictions)) in
  ret (mse, rmse, r2).

(** The body of the loop over [train_loader] (lines 124-133); it returns
    [loss.item()]. *)
Definition train_batch (epoch : nat) (batch : Data B * Data B) : M B float :=
  run zero_grad then
  fun w =>
    (* the graph of the loss keeps the mode of its forward pass *)
    let mode := forward_mode w in
    (let* outputs := model_call batch.1 in
     let outputs := view_flat B outputs in
     let loss := MSELoss B outputs batch.2 in
     if isnan loss || isinf loss
     then raise (ValueError (NaNOrInfInLoss epoch))
     else
       run loss_backward mode batch.1 batch.2 then
       run optimizer_step then
       ret loss) w.

(** [for batch_X, batch_y in train_loader: ...; total_loss += loss.item()] *)
Fixpoint train_batches (epoch : nat) (batches : list (Data B * Data B))
    (total_loss : float) : M B float :=
  match batches with
  | [] => ret total_loss
  | batch :: rest =>
      let* loss := train_batch epoch batch in
      train_batches epoch rest (SFadd 53 1024 total_loss loss)
  end.

(** The locals of the early stopping. [best_model_state] has no value
    until its first assignment. *)
Record LoopState := {
  best_val_loss : float;
  epochs_no_improve : Z;
  early_stop : bool;
  best_model_state : option state_dict_t
}.

(** The ghost record of an epoch: its validation MSE and the parameter values. *)
Definition note_epoch (epoch : nat) (val_mse : float) : M B unit :=
  fun w =>
    record_epoch
      {| rec_epoch := epoch; rec_val_mse := val_mse;
         rec_values := state_values (heap w) (parameters w) |} w.

(** Lines 141-150. *)
Definition early_stopping (val_mse : float) (st : LoopState) : M B LoopState :=
  if lt val_mse (best_val_loss st)
  then
    let* sd := state_dict in
    ret {| best_val_loss := val_mse; epochs_no_improve := 0;
           early_stop := early_stop st; best_model_state := Some sd |}
  else
    ret {| best_val_loss := best_val_loss st;
           epochs_no_improve := epochs_no_improve st + 1;
           early_stop := early_stop st;
           best_model_state := best_model_state st |}.

Definition set_early_stop (st : LoopState) : LoopState :=
  {| best_val_loss := best_val_loss st; epochs_no_improve := epochs_no_improve st;
     early_stop := true; best_model_state := best_model_state st |}.

(** One iteration of [for epoch in range(epochs)] (lines 121-160); the
    boolean tells whether it left the loop by [break]. *)
Definition epoch_body (train_loader : Loader B) (X_val : DataFrame) (y_val : Series)
    (device : Device) (epochs patience : Z) (epoch : nat) (st : LoopState)
    : M B (LoopState * bool) :=
  run model_train then
  let* total_loss := train_batches epoch (loader_iter B train_loader epoch) (of_Z 0) in
  let* avg_loss :=
    (if loader_len B train_loader =? 0
     then raise ZeroDivisionError
     else ret (SFdiv 53 1024 total_loss (of_Z (loader_len B train_loader)))) in
  let* metrics := evaluate_model X_val y_val (Some device) in
  let val_mse := metrics.1.1 in
  run note_epoch epoch val_mse then
  let* st := early_stopping val_mse st in
  if patience <=? epochs_no_improve st
  then ret (set_early_stop st, true)
  else
    run (if (Z.of_nat epoch mod 10 =? 0) || (Z.of_nat epoch =? epochs - 1) || early_stop st
         then emit (Progress (Z.of_nat epoch + 1) avg_loss val_mse)
         else ret tt) then
    ret (st, false).

Fixpoint epochs_loop (train_loader : Loader B) (X_val : DataFrame) (y_val : Series)
    (device : Device) (epochs patience : Z) (range : list nat) (st : LoopState)
    : M B LoopState :=
  match range with
  | [] => ret st
  | epoch :: rest =>
      let* r := epoch_body train_loader X_val y_val device epochs patience epoch st in
      if r.2 then ret r.1
      else epochs_loop train_loader X_val y_val device epochs patience rest r.1
  end.

(** Lines 89-113: device, tensors, data loader, optimizer. *)
Definition prepare (X_train : DataFrame) (y_train : Series) (batch_size : Z)
    (learning_rate weight_decay : float) (device : option Device)
    : M B (Device * Loader B) :=
  let device := resolve_device device in
  run emit (DeviceResolved device) then
  run model_to device then
  let* X_train_tensor := to_tensor (frame_values X_train) in
  let* y_train_tensor := to_tensor (series_values y_train) in
  let X_train_tensor :=
    if Nat.eqb (ndim B X_train_tensor) 2
    then unsqueeze1 B X_train_tensor else X_train_tensor in
  let* train_dataset := lift (of_outcome (TensorDataset B X_train_tensor y_train_tensor)) in
  let* train_loader := lift (of_outcome (DataLoader B train_dataset batch_size)) in
  run set_optimizer (Adam B learning_rate weight_decay) then
  ret (device, train_loader).

(** Lines 115-117. *)
Definition initial_state : LoopState :=
  {| best_val_loss := inf; epochs_no_improve := 0;
     early_stop := false; best_model_state := None |}.

(** Lines 162-165: reading [best_model_state] fails when it was never assigned. *)
Definition restore (st : LoopState) : M B state_dict_t :=
  let* best :=
    (match best_model_state st with
     | Some sd => ret sd
     | None => raise (UnboundLocalError "best_model_state")
     end) in
  run load_state_dict best then
  state_dict.

Definition train_model (X_train : DataFrame) (y_train : Series)
    (X_val : DataFrame) (y_val : Series) (epochs batch_size : Z)
    (learning_rate : float) (patience : Z) (weight_decay : float)
    (device : option Device) : M B state_dict_t :=
  run lift (check_data_types X_train y_train) then
  run lift (check_for_nan_inf X_train y_train) then
  let* setup := prepare X_train y_train batch_size learning_rate weight_decay device in
  let* st := epochs_loop setup.2 X_val y_val setup.1 epochs patience
               (seq 0 (Z.to_nat epochs)) initial_state in
  restore st.

End Training.

Arguments resolve_device B device : clear implicits.

(** ** A concrete backend: one-weight linear regression in float32

    The model is [x ↦ w·x] with a single parameter ["weight"] and no
    training-only layer. As [torch.FloatTensor] does, the conversion rounds
    the data to float32; predictions, losses and the mean squared error of
    scikit-learn are computed in float32; in place of Adam's update the
    optimizer moves the weight against the gradient by the learning rate; the
    loader cuts the data into batches in order, without shuffling. It runs
    the definitions above on concrete inputs. *)

Module Linear.

(** The nearest value of a format, for a float that is not in it. *)
Definition round_to (prec emax : Z) (f : float) : float :=
  match f with
  | S754_finite s m e => binary_normalize prec emax (cond_Zopp s (Zpos m)) e s
  | _ => f
  end.

(** The nearest float32, held as the binary64 value equal to it. *)
Definition single (f : float) : float := round_to 53 1024 (round_to 24 128 f).

Definition single_of_Z (z : Z) : float :=
  round_to 53 1024 (binary_normalize 24 128 z 0 false).

(** An operation of float32 arithmetic on two such values. *)
Definition op32 (op : Z -> Z -> float -> float -> float) (a b : float) : float :=
  round_to 53 1024 (op 24 128 (round_to 24 128 a) (round_to 24 128 b)).

Definition fadd := op32 SFadd.
Definition fsub := op32 SFsub.
Definition fmul := op32 SFmul.
Definition fdiv := op32 SFdiv.

Definition fsum (l : list float) : float := foldl fadd (of_Z 0) l.
Definition mean (l : list float) : float :=
  fdiv (fsum l) (single_of_Z (Z.of_nat (length l))).

Definition squared_error (a b : float) : float := fmul (fsub a b) (fsub a b).

(** The float32 a number of a numpy array becomes. *)
Definition number_value (n : number) : float :=
  match n with NFloat f => single f | NInt z => single_of_Z z end.

(** A tensor of samples: its number of dimensions and its elements. *)
Definition data := (nat * list float)%type.

Definition float_tensor (a : ndarray) : outcome data :=
  match a with
  | numeric_array nd d => Returned (nd, number_value <$> d)
  | object_array _ _ => Failed "TypeError: can't convert np.ndarray of type numpy.object_"
  end.

Definition tensor_dataset (X y : data) : outcome (list (float * float)) :=
  if bool_decide (length X.2 = length y.2)
  then Returned (zip X.2 y.2)
  else Failed "AssertionError: Size mismatch between tensors".

Fixpoint batches_of (fuel n : nat) (ds : list (float * float)) : list (data * data) :=
  match fuel, ds with
  | S fuel', _ :: _ =>
      ((3%nat, (take n ds).*1), (1%nat, (take n ds).*2)) :: batches_of fuel' n (drop n ds)
  | _, _ => []
  end.

Definition data_loader (ds : list (float * float)) (batch_size : Z)
  : outcome (list (data * data)) :=
  if batch_size <=? 0
  then Failed "ValueError: batch_size should be a positive integer value"
  else Returned (batches_of (length ds) (Z.to_nat batch_size) ds).

Definition predict (ws : list float) (x : data) : outcome (list float) :=
  match ws with
  | [w] => Returned (fmul w <$> x.2)
  | _ => Failed "RuntimeError: the model has one parameter"
  end.

Definition mse_loss (outputs : list float) (y : data) : float :=
  mean (zip_with squared_error outputs y.2).

(** d/dw mean((w·x - y)²) = mean(2·(w·x - y)·x) *)
Definition gradient (ws : list float) (x y : data) : float :=
  match ws with
  | [w] => mean (zip_with (fun a b => fmul (of_Z 2) (fmul (fsub (fmul w a) b) a)) x.2 y.2)
  | _ => of_Z 0
  end.

Definition descend (lr : float) (ws : list float) (g : float) : float * list float :=
  (lr, (fun w => fsub w (fmul lr g)) <$> ws).

(** scikit-learn's check of an input array: a NaN is reported before an
    infinite value. *)
Definition check_array (v : list float) : outcome unit :=
  if existsb isnan v
  then Failed "ValueError: Input contains NaN."
  else if existsb isinf v
       then Failed "ValueError: Input contains infinity or a value too large for dtype('float32')."
       else Returned tt.

(** The checks of a metric on its two inputs, the targets first. *)
Definition checked (y : data) (pred : list float) (v : float) : outcome float :=
  if negb (Nat.eqb (length y.2) (length pred))
  then Failed "ValueError: Found input variables with inconsistent numbers of samples"
  else
    match check_array y.2, check_array pred with
    | Failed what, _ => Failed what
    | Returned _, Failed what => Failed what
    | Returned _, Returned _ => Returned v
    end.

(** The mean of the squared errors, in float32: an overflow gives [inf]. *)
Definition sk_mse (y : data) (pred : list float) : outcome float :=
  checked y pred (mean (zip_with squared_error y.2 pred)).

Definition is_zero (f : float) : bool :=
  match f with S754_zero _ => true | _ => false end.

(** R² has no value for fewer than two samples; its sums are taken in
    binary64, and a constant target gives 1 or 0. *)
Definition sk_r2 (y : data) (pred : list float) : outcome float :=
  checked y pred
    (if (length pred <? 2)%nat then nan
     else
       let numerator := foldl (SFadd 53 1024) (of_Z 0) (zip_with squared_error y.2 pred) in
       let denominator :=
         foldl (SFadd 53 1024) (of_Z 0) ((fun v => squared_error v (mean y.2)) <$> y.2) in
       if is_zero denominator
       then (if is_zero numerator then of_Z 1 else of_Z 0)
       else SFsub 53 1024 (of_Z 1) (SFdiv 53 1024 numerator denominator)).

Definition backend : Backend := {|
  Tensor := float;
  Data := data;
  Output := list float;
  Grads := float;
  AdamState := float;
  Dataset := list (float * float);
  Loader := list (data * data);
  Generator := nat;
  cuda_is_available := false;
  FloatTensor := float_tensor;
  ndim := fun t => t.1;
  unsqueeze1 := fun t => (S t.1, t.2);
  TensorDataset := tensor_dataset;
  DataLoader := data_loader;
  loader_len := fun l => Z.of_nat (length l);
  loader_iter := fun l _ => l;
  forward := fun _ => predict;
  drawn := fun g _ _ => g;
  view_flat := fun o => o;
  MSELoss := mse_loss;
  backward := fun _ => gradient;
  Adam := fun lr _ => lr;
  Adam_step := descend;
  mean_squared_error := sk_mse;
  r2_score := sk_r2;
  np_sqrt := SFsqrt 53 1024
|}.

(** A model on the CPU whose weight is [w0], before any training. *)
Definition fresh_world (w0 : float) : World backend :=
  @mkWorld backend [w0] [("weight", 0%nat)] true cpu None None 0%nat [] [].

End Linear.

(** ** A backend with a training-only layer

    The model of [Linear] behind a dropout of its whole input with
    probability 1/2: in training mode a forward pass draws one bit from the
    generator, here a counter whose parity is the bit, and the input is
    doubled or zeroed; in evaluation mode the layer does nothing. *)

Module Dropout.

Import Linear.

Definition mask (g : nat) (x : data) : data :=
  (x.1, (if Nat.even g then fmul (of_Z 2) else fun _ => of_Z 0) <$> x.2).

Definition masked (mode : option nat) (x : data) : data :=
  match mode with Some g => mask g x | None => x end.

Definition backend : Backend := {|
  Tensor := float;
  Data := data;
  Output := list float;
  Grads := float;
  AdamState := float;
  Dataset := list (float * float);
  Loader := list (data * data);
  Generator := nat;
  cuda_is_available := false;
  FloatTensor := float_tensor;
  ndim := fun t => t.1;
  unsqueeze1 := fun t => (S t.1, t.2);
  TensorDataset := tensor_dataset;
  DataLoader := data_loader;
  loader_len := fun l => Z.of_nat (length l);
  loader_iter := fun l _ => l;
  forward := fun mode ws x => predict ws (masked mode x);
  drawn := fun g _ _ => S g;
  view_flat := fun o => o;
  MSELoss := mse_loss;
  backward := fun mode ws x y => gradient ws (masked mode x) y;
  Adam := fun lr _ => lr;
  Adam_step := descend;
  mean_squared_error := sk_mse;
  r2_score := sk_r2;
  np_sqrt := SFsqrt 53 1024
|}.

(** A model in training mode whose weight is [w0], the generator at [g]. *)
Definition fresh_world (w0 : float) (g : nat) : World backend :=
  @mkWorld backend [w0] [("weight", 0%nat)] true cpu None None g [] [].

End Dropout.

(** ** Auxiliary notions for the statements *)

Section Notions.

Context {B : Backend}.

(** Every parameter of the model has a storage. *)
Definition well_formed (w : World B) : Prop :=
  Forall (fun p => (p.2 < length (heap w))%nat) (parameters w).

(** What [evaluate_model] computes from the parameter values, the state
    left aside (lines 53-63). *)
Definition metrics_of (ps : list (Tensor B)) (X_val : DataFrame) (y_val : Series)
  : result (float * float * float) :=
  rbind (of_outcome (FloatTensor B (frame_values X_val))) (fun X_val_tensor =>
  rbind (of_outcome (FloatTensor B (series_values y_val))) (fun y_val_tensor =>
  rbind (of_outcome (forward B None ps X_val_tensor)) (fun predictions =>
  let predictions := view_flat B predictions in
  rbind (of_outcome (mean_squared_error B y_val_tensor predictions)) (fun mse =>
  rbind (of_outcome (r2_score B y_val_tensor predictions)) (fun r2 =>
  OK (mse, np_sqrt B mse, r2)))))).

(** Lines 141-155 as a function of the epoch's validation MSE, of the
    state dict [model.state_dict()] returns and of the locals: the new
    locals, and whether the loop is left. *)
Definition next_state (patience : Z) (val_mse : float) (sd : state_dict_t)
    (st : LoopState) : LoopState * bool :=
  let st1 :=
    if lt val_mse (best_val_loss st)
    then {| best_val_loss := val_mse; epochs_no_improve := 0;
            early_stop := early_stop st; best_model_state := Some sd |}
    else {| best_val_loss := best_val_loss st;
            epochs_no_improve := epochs_no_improve st + 1;
            early_stop := early_stop st;
            best_model_state := best_model_state st |} in
  if patience <=? epochs_no_improve st1
  then (set_early_stop st1, true)
  else (st1, false).

(** The course of the loop over [range] from the locals [st]: the
    validation MSEs of the epochs it executes, and the locals it ends with. *)
Inductive loop_path (patience : Z) (sd : state_dict_t)
  : list nat -> LoopState -> list float -> LoopState -> Prop :=
| path_done st :
    loop_path patience sd [] st [] st
| path_break epoch rest st v st' :
    next_state patience v sd st = (st', true) ->
    loop_path patience sd (epoch :: rest) st [v] st'
| path_next epoch rest st v st1 vs st' :
    next_state patience v sd st = (st1, false) ->
    loop_path patience sd rest st1 vs st' ->
    loop_path patience sd (epoch :: rest) st (v :: vs) st'.

(** The record with the lowest validation MSE, the earliest one among
    equals: the epoch whose snapshot the specification keeps. *)
Definition best_record (recs : list (EpochRecord B)) : option (EpochRecord B) :=
  match recs with
  | [] => None
  | r :: rest =>
      Some (foldl (fun best r' =>
                     if lt (rec_val_mse r') (rec_val_mse best) then r' else best)
              r rest)
  end.

(** The state in which a batch is abandoned once its loss is found not to
    be finite: the gradients were cleared and the forward pass on [x] has
    run. *)
Definition after_failed_forward (x : Data B) (w : World B) : World B :=
  mkWorld (heap w) (parameters w) (training w) (model_device w) None
    (optimizer w) (generator (draw x w)) (trace w ++ [ZeroGrad; ForwardPass])
    (history w).

(** A computation only adds to the trace. *)
Definition grows {A} (m : M B A) : Prop :=
  forall w w' r, m w = (w', r) -> trace w `prefix_of` trace w'.

(** A trace shows a call of the metric functions. *)
Definition metrics_computed (t : list (Event B)) : bool :=
  existsb (fun e => match e with MetricsComputed _ _ => true | _ => false end) t.

(** Each validation MSE of [vs] is strictly below the one before it, the
    first below [prev]. *)
Fixpoint improving (prev : float) (vs : list float) : Prop :=
  match vs with
  | [] => True
  | v :: rest => lt v prev = true /\ improving v rest
  end.

(** The number of batches the loader yields over the epochs of [recs]. *)
Definition batches_trained (train_loader : Loader B) (recs : list (EpochRecord B)) : nat :=
  sum_list ((fun r => length (loader_iter B train_loader (rec_epoch r))) <$> recs).

(** The number of [optimizer.step()] calls a trace shows. *)
Definition is_optimizer_step (e : Event B) : bool :=
  match e with OptimizerStep => true | _ => false end.

Definition optimizer_steps (t : list (Event B)) : nat :=
  length (List.filter is_optimizer_step t).

End Notions.

(** An error of the training itself: a loss that is not finite, a data
    loader without batches, a failure inside a library. *)
Definition training_error (e : exn) : bool :=
  match e with
  | ValueError (NaNOrInfInLoss _) | ZeroDivisionError | LibraryError _ => true
  | _ => false
  end.

(** An error of the up-front validation. *)
Definition validation_error (e : exn) : bool :=
  DataTypeError e || DataIntegrityError e.

(** ** What the specification calls numeric, NaN and Infinity *)

(** The numeric dtypes of the model: [float64] and [int64]. *)
Definition numeric_dtype (s : Series) : bool :=
  match s with
  | FloatSeries _ | IntSeries _ => true
  | ObjectSeries _ | StringSeries _ => false
  end.

Definition numeric_frame (X : DataFrame) : bool :=
  forallb (fun c => numeric_dtype c.2) X.

(** Some feature column, or the target, has dtype [object]. *)
Definition has_object_dtype (X : DataFrame) (y : Series) : bool :=
  existsb (fun c => String.eqb (dtype c.2) "object") X || String.eqb (dtype y) "object".

Definition pyobj_is (p : float -> bool) (o : pyobj) : bool :=
  match o with PyFloat f => p f | _ => false end.

(** Some value of the column satisfies [p], a predicate on floats. *)
Definition series_has (p : float -> bool) (s : Series) : bool :=
  match s with
  | FloatSeries vals => existsb p vals
  | IntSeries _ => false
  | ObjectSeries vals => existsb (pyobj_is p) vals
  | StringSeries _ => false
  end.

Definition frame_has (p : float -> bool) (X : DataFrame) : bool :=
  existsb (fun c => series_has p c.2) X.

(** The input contains a NaN, or an infinite value. *)
Definition contains_nan (X : DataFrame) (y : Series) : bool :=
  frame_has isnan X || series_has isnan y.

Definition contains_inf (X : DataFrame) (y : Series) : bool :=
  frame_has isinf X || series_has isinf y.

(** The numbers of a numeric column, as [.values] lists them. *)
Definition series_numbers (s : Series) : list number :=
  match s with
  | FloatSeries vals => NFloat <$> vals
  | IntSeries vals => NInt <$> vals
  | _ => []
  end.

(** ** Concrete inputs *)

Module Scenario.

Import Linear.

Definition quarter : float := SFdiv 53 1024 (of_Z 1) (of_Z 4).

(** 1e20: finite as a float32, with a square beyond the float32 range. *)
Definition huge : float := of_Z (10 ^ 20).

Definition one_feature (x : Z) : DataFrame := [("x"%string, IntSeries [x])].

(** One training sample, x = 1 with target -8, pulls the weight from 0
    down to -8; the validation sample, x = 1 with target 0, is best served
    by the initial weight. With learning rate 1/4 the weight is -4, -6, -7
    after the first three epochs and the validation MSE 16, 36, 49. *)
Definition X_train : DataFrame := one_feature 1.
Definition y_train : Series := IntSeries [-8].
Definition X_val : DataFrame := one_feature 1.
Definition y_val : Series := IntSeries [0].

Definition start : World backend := fresh_world (of_Z 0).

(** A run from [start] with batch size 32, learning rate 1/4 and no weight
    decay, on the device found. *)
Abbreviation fit X_train y_train X_val y_val epochs patience :=
  (train_model (B := backend) X_train y_train X_val y_val epochs 32 quarter
     patience (of_Z 0) None start).

(** The record of an epoch with validation MSE [mse] and weight [weight]. *)
Definition epoch_record (epoch : nat) (mse weight : Z) : EpochRecord backend :=
  @Build_EpochRecord backend epoch (of_Z mse) [("weight"%string, Some (of_Z weight))].

(** Tables with a column that is not numeric. *)
Definition positions : DataFrame :=
  [("position"%string, StringSeries [Some "GK"%string; Some "FW"%string])].
Definition clubs : DataFrame :=
  [("club"%string, ObjectSeries [PyStr "Roma"; PyStr "Lecce"])].
Definition market_values : Series := FloatSeries [of_Z 1; of_Z 2].

End Scenario.

(** ** Facts about the validator *)

Section ValidatorFacts.

Lemma numeric_dtype_not_object s :
  numeric_dtype s = true -> String.eqb (dtype s) "object" = false.
Proof. destruct s; simpl; intros; (reflexivity || discriminate). Qed.

Lemma check_columns_numeric X :
  numeric_frame X = true -> check_columns X = OK tt.
Proof.
  induction X as [|[column s] rest IH]; simpl; [reflexivity|].
  intros [Hs Hrest]%andb_prop.
  rewrite (numeric_dtype_not_object s Hs). auto.
Qed.

Lemma check_data_types_numeric X y :
  numeric_frame X = true -> numeric_dtype y = true ->
  check_data_types X y = OK tt.
Proof.
  intros HX Hy. unfold check_data_types.
  rewrite (check_columns_numeric X HX). simpl.
  rewrite (numeric_dtype_not_object y Hy). reflexivity.
Qed.

(** The only failures of the type check are the two errors it raises. *)
Lemma check_columns_raises X e :
  check_columns X = Raise e -> DataTypeError e = true.
Proof.
  induction X as [|[column s] rest IH]; simpl; [discriminate|].
  destruct (String.eqb (dtype s) "object"); [|exact IH].
  intros [= <-]. reflexivity.
Qed.

Lemma check_data_types_raises X y e :
  check_data_types X y = Raise e -> DataTypeError e = true.
Proof.
  unfold check_data_types.
  destruct (check_columns X) as [[]|e'] eqn:HX; simpl.
  - destruct (String.eqb (dtype y) "object"); [|discriminate].
    intros [= <-]. reflexivity.
  - intros [= <-]. eauto using check_columns_raises.
Qed.

Lemma series_values_numeric s :
  numeric_dtype s = true -> series_values s = numeric_array 1 (series_numbers s).
Proof. destruct s; simpl; intros; (reflexivity || discriminate). Qed.

Lemma frame_values_numeric X :
  numeric_frame X = true ->
  frame_values X = numeric_array 2 (concat ((fun c => series_numbers c.2) <$> X)).
Proof.
  induction X as [|[column s] rest IH]; simpl; [reflexivity|].
  intros [Hs Hrest]%andb_prop.
  rewrite (series_values_numeric s Hs), (IH Hrest). reflexivity.
Qed.

Lemma any_app a b : any (a ++ b) = any a || any b.
Proof. apply existsb_app. Qed.

Lemma all_app a b : all (a ++ b) = all a && all b.
Proof. apply forallb_app. Qed.

Lemma any_fmap {A} (p : A -> bool) l : any (p <$> l) = existsb p l.
Proof. induction l as [|a l IH]; simpl; [reflexivity|]. now rewrite <- IH. Qed.

Lemma all_fmap {A} (p : A -> bool) l : all (p <$> l) = forallb p l.
Proof. induction l as [|a l IH]; simpl; [reflexivity|]. now rewrite <- IH. Qed.

Lemma isnull_numeric s :
  numeric_dtype s = true -> any (isnull s) = series_has isnan s.
Proof.
  destruct s as [vals|vals| |]; simpl; try discriminate; intros _.
  - apply any_fmap.
  - rewrite any_fmap. induction vals; simpl; auto.
Qed.

Lemma frame_isnull_numeric X :
  numeric_frame X = true -> any (frame_isnull X) = frame_has isnan X.
Proof.
  unfold frame_isnull, frame_has.
  induction X as [|[column s] rest IH]; [reflexivity|].
  intros [Hs Hrest]%andb_prop.
  rewrite fmap_cons. cbn [concat existsb snd].
  rewrite any_app, (isnull_numeric s Hs), (IH Hrest). reflexivity.
Qed.

Lemma isfinite_spec f : isfinite f = negb (isnan f) && negb (isinf f).
Proof. destruct f; reflexivity. Qed.

Lemma forallb_isfinite vals :
  forallb isfinite vals = negb (existsb isnan vals) && negb (existsb isinf vals).
Proof.
  induction vals as [|f vals IH]; simpl; [reflexivity|].
  rewrite IH, isfinite_spec.
  destruct (isnan f), (isinf f), (existsb isnan vals), (existsb isinf vals); reflexivity.
Qed.

Lemma series_numbers_finite s :
  numeric_dtype s = true ->
  all (number_isfinite <$> series_numbers s)
  = negb (series_has isnan s) && negb (series_has isinf s).
Proof.
  destruct s as [vals|vals| |]; simpl; try discriminate; intros _; rewrite all_fmap.
  - rewrite <- forallb_isfinite.
    induction vals as [|f vals IH]; [reflexivity|].
    rewrite fmap_cons. cbn [forallb number_isfinite]. now rewrite IH.
  - induction vals as [|z vals IH]; [reflexivity|].
    rewrite fmap_cons. cbn [forallb number_isfinite]. now rewrite IH.
Qed.

Lemma frame_numbers_finite X :
  numeric_frame X = true ->
  all (number_isfinite <$> concat ((fun c => series_numbers c.2) <$> X))
  = negb (frame_has isnan X) && negb (frame_has isinf X).
Proof.
  unfold frame_has.
  induction X as [|[column s] rest IH]; [reflexivity|].
  intros [Hs Hrest]%andb_prop.
  rewrite fmap_cons. cbn [concat existsb snd].
  rewrite fmap_app, all_app, (series_numbers_finite s Hs), (IH Hrest).
  destruct (series_has isnan s), (series_has isinf s),
    (existsb _ rest), (existsb _ rest); reflexivity.
Qed.

(** On numeric columns [check_for_nan_inf] decides exactly the presence of
    a NaN or of an infinite value. *)
Lemma check_for_nan_inf_numeric X y :
  numeric_frame X = true -> numeric_dtype y = true ->
  check_for_nan_inf X y =
    if contains_nan X y then Raise (ValueError NaNValuesDetected)
    else if contains_inf X y then Raise (ValueError InfiniteValuesDetected)
    else OK tt.
Proof.
  intros HX Hy. unfold check_for_nan_inf, contains_nan, contains_inf.
  rewrite (frame_isnull_numeric X HX), (isnull_numeric y Hy).
  destruct (frame_has isnan X) eqn:HnX; simpl; [reflexivity|].
  destruct (series_has isnan y) eqn:Hny; simpl; [reflexivity|].
  rewrite (frame_values_numeric X HX), (series_values_numeric y Hy). simpl.
  rewrite (frame_numbers_finite X HX), (series_numbers_finite y Hy), HnX, Hny. simpl.
  destruct (frame_has isinf X); simpl; [reflexivity|].
  destruct (series_has isinf y); reflexivity.
Qed.

End ValidatorFacts.

(** ** Facts about the monad and the model object *)

Section MonadFacts.

Context {B : Backend}.

Lemma bind_inv {A C} (m : M B A) (k : A -> M B C) w w' r :
  bind m k w = (w', r) ->
  (exists w1 a, m w = (w1, OK a) /\ k a w1 = (w', r)) \/
  (exists e, m w = (w', Raise e) /\ r = Raise e).
Proof.
  unfold bind. destruct (m w) as [w1 [a|e]]; intros H.
  - left. eauto.
  - right. inversion H; subst. eauto.
Qed.

Lemma bind_OK {A C} (m : M B A) (k : A -> M B C) w w' c :
  bind m k w = (w', OK c) ->
  exists w1 a, m w = (w1, OK a) /\ k a w1 = (w', OK c).
Proof.
  intros [H|(e & _ & H)]%bind_inv; [exact H|discriminate].
Qed.

Lemma bind_step {A C} (m : M B A) (k : A -> M B C) w w1 a :
  m w = (w1, OK a) -> bind m k w = k a w1.
Proof. unfold bind. now intros ->. Qed.

Lemma bind_raise {A C} (m : M B A) (k : A -> M B C) w w1 e :
  m w = (w1, Raise e) -> bind m k w = (w1, Raise e).
Proof. unfold bind. now intros ->. Qed.

Lemma lift_inv {A} (r : result A) (w w' : World B) r' :
  lift r w = (w', r') -> w' = w /\ r' = r.
Proof. unfold lift. now intros [= <- <-]. Qed.

End MonadFacts.

(** Splits a run of [bind] into the run of its first part and the rest. *)
Tactic Notation "bind_split" hyp(H) "as" ident(w1) ident(a) ident(H1) :=
  apply bind_OK in H; destruct H as (w1 & a & H1 & H).

Section ModelFacts.

Context {B : Backend}.

Implicit Types (w : World B) (h : list (Tensor B)) (ps sd : state_dict_t).

Lemma state_values_app_l h ext ps :
  Forall (fun p => (p.2 < length h)%nat) ps ->
  state_values (h ++ ext) ps = state_values h ps.
Proof.
  unfold state_values. induction 1 as [|p ps Hp _ IH]; [reflexivity|].
  rewrite !fmap_cons, IH, lookup_app_l by exact Hp. reflexivity.
Qed.

(** Moving the parameters keeps their names and their values. *)
Lemma move_parameters_spec ps h :
  Forall (fun p => (p.2 < length h)%nat) ps ->
  forall ps' h', move_parameters ps h = (ps', h') ->
    state_values h' ps' = state_values h ps
    /\ ps'.*1 = ps.*1
    /\ (exists ext, h' = h ++ ext)
    /\ Forall (fun p => (p.2 < length h')%nat) ps'.
Proof.
  intros Hwf. revert h Hwf.
  induction ps as [|[name l] rest IH]; intros h Hwf ps' h' Hmove.
  - simpl in Hmove. injection Hmove as <- <-.
    repeat split; [exists []; now rewrite app_nil_r | constructor].
  - apply Forall_cons in Hwf as [Hl Hrest]. simpl in Hl, Hmove.
    destruct (lookup_lt_is_Some_2 h l Hl) as [v Hv]. rewrite Hv in Hmove.
    destruct (move_parameters rest (h ++ [v])) as [rest' h1] eqn:Hrec.
    injection Hmove as <- <-.
    destruct (IH (h ++ [v])) with (ps' := rest') (h' := h1)
      as (Hvals & Hnames & [ext ->] & Hwf'); [|exact Hrec|].
    { eapply Forall_impl; [exact Hrest|]. intros p Hp. simpl in Hp.
      rewrite length_app. simpl. lia. }
    repeat split.
    + unfold state_values in *. rewrite !fmap_cons. simpl. f_equal.
      * f_equal. rewrite Hv, <- app_assoc. simpl.
        now rewrite list_lookup_middle.
      * rewrite Hvals. apply (state_values_app_l h [v] rest Hrest).
    + rewrite !fmap_cons. simpl. now f_equal.
    + exists ([v] ++ ext). now rewrite app_assoc.
    + constructor; [|exact Hwf'].
      simpl. rewrite !length_app. simpl. lia.
Qed.

(** [model.to(device)] changes no parameter value; on the device the model
    is on, it changes nothing. *)
Lemma model_to_same d w : model_device w = d -> model_to d w = (w, OK tt).
Proof. unfold model_to. intros ->. now rewrite decide_True. Qed.

Lemma model_to_spec d w :
  well_formed w ->
  exists w', model_to d w = (w', OK tt)
    /\ state_values (heap w') (parameters w') = state_values (heap w) (parameters w)
    /\ (parameters w').*1 = (parameters w).*1
    /\ well_formed w' /\ model_device w' = d
    /\ history w' = history w.
Proof.
  intros Hwf. unfold model_to. destruct (decide (model_device w = d)) as [Hd|Hd].
  - exists w. repeat split; auto.
  - destruct (move_parameters (parameters w) (heap w)) as [ps h] eqn:Hmove.
    destruct (move_parameters_spec _ _ Hwf _ _ Hmove) as (Hv & Hn & _ & Hwf').
    eexists. split; [reflexivity|]. simpl. repeat split; auto.
Qed.

End ModelFacts.

(** ** Facts about the evaluator *)

Section EvaluatorFacts.

Context {B : Backend}.

Implicit Types (w : World B).

(** A run of [evaluate_model] returns what [metrics_of] computes from the
    parameter values, and leaves the parameters as they were. *)
Lemma evaluate_model_spec X_val y_val device w :
  well_formed w ->
  exists w', evaluate_model X_val y_val device w
             = (w', metrics_of (param_values w) X_val y_val)
    /\ state_values (heap w') (parameters w') = state_values (heap w) (parameters w)
    /\ (parameters w').*1 = (parameters w).*1
    /\ well_formed w' /\ model_device w' = resolve_device B device
    /\ history w' = history w.
Proof.
  intros Hwf.
  destruct (model_to_spec (resolve_device B device) w Hwf)
    as (w1 & Hto & Hv & Hn & Hwf1 & Hd & Hh).
  unfold evaluate_model. rewrite (bind_step _ _ _ _ _ Hto).
  assert (Hp : param_values w = param_values w1)
    by (unfold param_values; now rewrite Hv).
  unfold metrics_of. rewrite Hp.
  unfold to_tensor, model_eval, model_call, forward_mode, draw, bind, lift, ret, emit, set_training, rbind.
  simpl.
  destruct (FloatTensor B (frame_values X_val)) as [tx|e]; simpl;
    [|exists w1; repeat split; auto].
  destruct (FloatTensor B (series_values y_val)) as [ty|e]; simpl;
    [|eexists; split; [reflexivity|]; simpl; repeat split; auto].
  unfold param_values at 1. simpl. fold (param_values w1).
  destruct (forward B None (param_values w1) tx) as [o|e]; simpl;
    [|eexists; split; [reflexivity|]; simpl; repeat split; auto].
  destruct (mean_squared_error B ty (view_flat B o)) as [mse|e]; simpl;
    [|eexists; split; [reflexivity|]; simpl; repeat split; auto].
  destruct (r2_score B ty (view_flat B o)) as [r2|e]; simpl;
    eexists; (split; [reflexivity|]); simpl; repeat split; auto.
Qed.

(** On the device the model is on, the evaluation touches neither the
    store nor the model's parameters, its optimizer or the epoch records. *)
Lemma evaluate_model_frame X_val y_val device w w' r :
  model_device w = device ->
  evaluate_model X_val y_val (Some device) w = (w', r) ->
  heap w' = heap w /\ parameters w' = parameters w
  /\ model_device w' = device /\ history w' = history w
  /\ optimizer w' = optimizer w.
Proof.
  intros Hd. unfold evaluate_model. simpl resolve_device.
  rewrite (bind_step _ _ _ _ _ (model_to_same device w Hd)).
  unfold to_tensor, model_eval, model_call, forward_mode, draw, bind, lift, ret, emit, set_training.
  simpl.
  destruct (FloatTensor B (frame_values X_val)) as [tx|e]; simpl;
    [|intros [= <- <-]; auto].
  destruct (FloatTensor B (series_values y_val)) as [ty|e]; simpl;
    [|intros [= <- <-]; auto].
  destruct (forward B None _ tx) as [o|e]; simpl;
    [|intros [= <- <-]; auto].
  destruct (mean_squared_error B ty (view_flat B o)) as [mse|e]; simpl;
    [|intros [= <- <-]; auto].
  destruct (r2_score B ty (view_flat B o)) as [r2|e]; simpl;
    intros [= <- <-]; auto.
Qed.

End EvaluatorFacts.

(** ** Facts about the training loop *)

Section LoopFacts.

Context {B : Backend}.

Implicit Types (w : World B) (st : LoopState).

Lemma train_batch_frame epoch batch w w' r :
  train_batch epoch batch w = (w', r) ->
  parameters w' = parameters w /\ model_device w' = model_device w
  /\ history w' = history w.
Proof.
  unfold train_batch, zero_grad, model_call, forward_mode, draw, set_generator,
    loss_backward, optimizer_step, bind, ret, raise, emit, set_grad. simpl.
  destruct (training w); simpl;
    (destruct (forward B _ _ batch.1) as [o|e]; simpl; [|intros [= <- <-]; auto]);
    (destruct (isnan _ || isinf _); simpl; [intros [= <- <-]; auto|]);
    (destruct (optimizer w) as [o'|]; simpl; [|intros [= <- <-]; auto]);
    destruct (Adam_step B o' _ _) as [o2 vals]; simpl;
    intros [= <- <-]; auto.
Qed.

Lemma train_batches_frame epoch batches total w w' r :
  train_batches epoch batches total w = (w', r) ->
  parameters w' = parameters w /\ model_device w' = model_device w
  /\ history w' = history w.
Proof.
  revert total w. induction batches as [|batch rest IH]; intros total w; simpl.
  - intros [= <- <-]; auto.
  - intros [(w1 & loss & H1 & H2)|(e & H1 & _)]%bind_inv.
    + apply train_batch_frame in H1 as (Hp & Hd & Hh).
      apply IH in H2 as (Hp' & Hd' & Hh'). repeat split; congruence.
    + now apply train_batch_frame in H1.
Qed.

Lemma early_stopping_spec patience val_mse st w w' st' :
  early_stopping val_mse st w = (w', OK st') ->
  w' = w
  /\ next_state patience val_mse (parameters w) st
     = if patience <=? epochs_no_improve st'
       then (set_early_stop st', true) else (st', false).
Proof.
  unfold early_stopping, next_state, state_dict, bind, ret.
  destruct (lt val_mse (best_val_loss st)); intros [= <- <-]; auto.
Qed.

(** One executed epoch adds one record, made of the values the parameters
    have when the epoch ends, and moves the locals by [next_state]. *)
Lemma epoch_body_spec train_loader X_val y_val device epochs patience epoch st w w' st' brk :
  model_device w = device ->
  epoch_body train_loader X_val y_val device epochs patience epoch st w
    = (w', OK (st', brk)) ->
  parameters w' = parameters w /\ model_device w' = device
  /\ exists v,
       history w' = history w
         ++ [{| rec_epoch := epoch; rec_val_mse := v;
                rec_values := state_values (heap w') (parameters w') |}]
       /\ next_state patience v (parameters w) st = (st', brk).
Proof.
  intros Hd H. unfold epoch_body in H.
  bind_split H as w1 u1 H1. unfold model_train, set_training in H1.
  injection H1 as <- <-.
  bind_split H as w2 total H2. apply train_batches_frame in H2 as (Hp2 & Hd2 & Hh2).
  simpl in Hp2, Hd2, Hh2.
  bind_split H as w3 avg H3.
  assert (w3 = w2) as ->.
  { destruct (loader_len B train_loader =? 0); [discriminate|].
    now injection H3 as <- _. }
  clear H3.
  bind_split H as w4 metrics H4.
  apply evaluate_model_frame in H4 as (Hh4 & Hp4 & Hd4 & Hhist4 & _);
    [|congruence].
  bind_split H as w5 u5 H5. unfold note_epoch, record_epoch in H5.
  injection H5 as <- <-.
  bind_split H as w6 st6 H6.
  apply (early_stopping_spec patience) in H6 as [-> Hnext].
  simpl in Hnext.
  assert (Hfin : parameters w' = parameters w4 /\ model_device w' = model_device w4
                 /\ heap w' = heap w4 /\ history w' = history w4 ++
                      [{| rec_epoch := epoch; rec_val_mse := metrics.1.1;
                          rec_values := state_values (heap w4) (parameters w4) |}]
                 /\ (st', brk) = if patience <=? epochs_no_improve st6
                                 then (set_early_stop st6, true) else (st6, false)).
  { destruct (patience <=? epochs_no_improve st6).
    - injection H as <- <- <-. simpl. repeat split; congruence.
    - bind_split H as w7 u7 H7. injection H as <- <- <-.
      destruct (_ || _ || _); [unfold emit in H7|unfold ret in H7];
        injection H7 as <- _; simpl; repeat split; congruence. }
  destruct Hfin as (Hp & Hdev & Hheap & Hhist & Hst).
  repeat split; [congruence|congruence|].
  exists metrics.1.1. split.
  - rewrite Hhist, Hheap, Hp, Hhist4, Hh2. reflexivity.
  - rewrite Hst. rewrite <- Hnext. now rewrite Hp4, Hp2.
Qed.

(** The loop executes a prefix of [range]; it adds one record per executed
    epoch, its locals follow [loop_path], the model keeps its parameters'
    storages, and the values in the store at the end are those of the last
    record. *)
Lemma epochs_loop_spec train_loader X_val y_val device epochs patience range :
  forall st w w' st',
  model_device w = device ->
  epochs_loop train_loader X_val y_val device epochs patience range st w
    = (w', OK st') ->
  parameters w' = parameters w /\ model_device w' = device
  /\ exists recs,
       history w' = history w ++ recs
       /\ loop_path patience (parameters w) range st (rec_val_mse <$> recs) st'
       /\ rec_epoch <$> recs = take (length recs) range
       /\ state_values (heap w') (parameters w')
          = from_option rec_values (state_values (heap w) (parameters w)) (last recs).
Proof.
  induction range as [|epoch rest IH]; intros st w w' st' Hd H.
  - injection H as <- <-. repeat split; auto.
    exists []. rewrite app_nil_r. repeat split; auto. constructor.
  - simpl in H. bind_split H as w1 r H1. destruct r as [st1 brk].
    apply epoch_body_spec in H1 as (Hp1 & Hd1 & v & Hh1 & Hnext); [|exact Hd].
    simpl in H. destruct brk.
    + injection H as <- <-. repeat split; auto.
      eexists [_]. split; [exact Hh1|]. repeat split; auto.
      now apply path_break.
    + apply IH in H as (Hp & Hd' & recs & Hh & Hpath & Hep & Hval); [|exact Hd1].
      repeat split; [congruence|exact Hd'|].
      eexists (_ :: recs). split; [|repeat split].
      * rewrite Hh, Hh1, <- app_assoc. reflexivity.
      * rewrite fmap_cons. simpl. eapply path_next; [exact Hnext|].
        now rewrite <- Hp1.
      * rewrite fmap_cons. simpl. now f_equal.
      * rewrite Hval. destruct recs as [|r recs]; [reflexivity|].
        change (last (?x :: r :: recs)) with (last (r :: recs)).
        destruct (last (r :: recs)) eqn:Hlast; [reflexivity|].
        now apply last_None in Hlast.
Qed.

Lemma move_parameters_names (ps : state_dict_t) (h : list (Tensor B)) :
  (move_parameters ps h).1.*1 = ps.*1.
Proof.
  revert h. induction ps as [|[name l] rest IH]; intros h; [reflexivity|].
  simpl. destruct (h !! l) as [v|].
  - specialize (IH (h ++ [v])). destruct (move_parameters rest (h ++ [v])).
    simpl in *. now f_equal.
  - specialize (IH h). destruct (move_parameters rest h).
    simpl in *. now f_equal.
Qed.

(** The preparation leaves the model on the device it returns, with the
    parameter names it had, and records no epoch. *)
Lemma prepare_spec X_train y_train batch_size learning_rate weight_decay device w w' setup :
  prepare X_train y_train batch_size learning_rate weight_decay device w
    = (w', OK setup) ->
  model_device w' = setup.1 /\ (parameters w').*1 = (parameters w).*1
  /\ history w' = history w.
Proof.
  unfold prepare, to_tensor, model_to, bind, lift, ret, emit, set_optimizer. simpl.
  destruct (decide (model_device w = resolve_device B device)) as [Hd|Hd]; simpl.
  - destruct (FloatTensor B (frame_values X_train)); simpl; [|discriminate].
    destruct (FloatTensor B (series_values y_train)); simpl; [|discriminate].
    destruct (TensorDataset B _ _); simpl; [|discriminate].
    destruct (DataLoader B _ _); simpl; [|discriminate].
    intros [= <- <-]. simpl. auto.
  - pose proof (move_parameters_names (parameters w) (heap w)) as Hn.
    destruct (move_parameters (parameters w) (heap w)) as [ps h]. simpl in *.
    destruct (FloatTensor B (frame_values X_train)); simpl; [|discriminate].
    destruct (FloatTensor B (series_values y_train)); simpl; [|discriminate].
    destruct (TensorDataset B _ _); simpl; [|discriminate].
    destruct (DataLoader B _ _); simpl; [|discriminate].
    intros [= <- <-]. simpl. auto.
Qed.

Lemma names_determine (sd : state_dict_t) name l1 l2 :
  NoDup sd.*1 -> (name, l1) ∈ sd -> (name, l2) ∈ sd -> l1 = l2.
Proof.
  intros Hnd [i Hi]%list_elem_of_lookup [j Hj]%list_elem_of_lookup.
  assert (i = j) as ->.
  { eapply NoDup_lookup; [exact Hnd| |]; rewrite list_lookup_fmap.
    - now rewrite Hi.
    - now rewrite Hj. }
  congruence.
Qed.

(** Loading a state dict whose tensors are the parameters themselves
    copies every storage onto itself. *)
Lemma copy_parameters_self (sd : state_dict_t) :
  NoDup sd.*1 ->
  forall (ps : state_dict_t) (h h' : list (Tensor B)),
    ps ⊆ sd -> copy_parameters ps sd h = OK h' -> h' = h.
Proof.
  intros Hnd. induction ps as [|[name dst] rest IH]; intros h h' Hsub; simpl.
  - now intros [= <-].
  - destruct (list_find _ sd) as [[i [name' src]]|] eqn:Hfind; [|discriminate].
    apply list_find_Some in Hfind as (Hi & Hname & _). simpl in Hname. subst name'.
    assert (src = dst) as ->.
    { eapply names_determine; [exact Hnd| |].
      - eapply list_elem_of_lookup_2, Hi.
      - apply Hsub. left. }
    destruct (h !! dst) as [v|] eqn:Hv; [|discriminate].
    rewrite list_insert_id by exact Hv.
    apply IH. intros p Hp. apply Hsub. now right.
Qed.

(** With the state dict of the model itself, the restore step changes no
    value and returns that state dict. *)
Lemma restore_alias st w w' sd :
  NoDup (parameters w).*1 ->
  best_model_state st = Some (parameters w) ->
  restore st w = (w', OK sd) ->
  heap w' = heap w /\ parameters w' = parameters w /\ sd = parameters w
  /\ history w' = history w.
Proof.
  intros Hnd Hbest. unfold restore, load_state_dict, state_dict, bind, ret, emit.
  rewrite Hbest.
  destruct (copy_parameters _ _ _) as [h|e] eqn:Hcopy; [|discriminate].
  apply copy_parameters_self in Hcopy; [|exact Hnd|reflexivity]. subst h.
  simpl. intros [= <- <-]. simpl. auto.
Qed.

(** *** Which errors each part can raise *)

Lemma evaluate_model_raises X_val y_val device w w' e :
  evaluate_model X_val y_val device w = (w', Raise e) -> training_error e = true.
Proof.
  unfold evaluate_model, model_to, to_tensor, model_eval, model_call, forward_mode, draw,
    bind, lift, ret, emit, set_training. simpl.
  destruct (decide _); [|destruct (move_parameters _ _)]; simpl;
    (destruct (FloatTensor B (frame_values X_val)); simpl; [|now intros [= <- <-]]);
    (destruct (FloatTensor B (series_values y_val)); simpl; [|now intros [= <- <-]]);
    (destruct (forward B None _ _); simpl; [|now intros [= <- <-]]);
    (destruct (mean_squared_error B _ _); simpl; [|now intros [= <- <-]]);
    (destruct (r2_score B _ _); simpl; [discriminate|now intros [= <- <-]]).
Qed.

Lemma train_batch_raises epoch batch w w' e :
  train_batch epoch batch w = (w', Raise e) -> training_error e = true.
Proof.
  unfold train_batch, zero_grad, model_call, forward_mode, draw, set_generator,
    loss_backward, optimizer_step, bind, ret, raise, emit, set_grad. simpl.
  destruct (training w); simpl;
    (destruct (forward B _ _ batch.1) as [o|what]; simpl; [|now intros [= <- <-]]);
    (destruct (isnan _ || isinf _); simpl; [now intros [= <- <-]|]);
    (destruct (optimizer w) as [o'|]; simpl; [|discriminate]);
    destruct (Adam_step B o' _ _) as [o2 vals]; simpl; discriminate.
Qed.

Lemma train_batches_raises epoch batches total w w' e :
  train_batches epoch batches total w = (w', Raise e) -> training_error e = true.
Proof.
  revert total w. induction batches as [|batch rest IH]; intros total w; simpl.
  - discriminate.
  - intros [(w1 & loss & H1 & H2)|(e' & H1 & [= <-])]%bind_inv.
    + eauto.
    + eauto using train_batch_raises.
Qed.

Lemma epoch_body_raises train_loader X_val y_val device epochs patience epoch st w w' e :
  epoch_body train_loader X_val y_val device epochs patience epoch st w
    = (w', Raise e) ->
  training_error e = true.
Proof.
  unfold epoch_body.
  intros [(w1 & u1 & _ & H)|(e' & H & _)]%bind_inv; [|discriminate].
  apply bind_inv in H as [(w2 & total & _ & H)|(e' & H & [= <-])];
    [|eauto using train_batches_raises].
  apply bind_inv in H as [(w3 & avg & _ & H)|(e' & H & [= <-])];
    [|destruct (loader_len B train_loader =? 0); [now injection H as _ <-|discriminate]].
  apply bind_inv in H as [(w4 & metrics & _ & H)|(e' & H & [= <-])];
    [|eauto using evaluate_model_raises].
  apply bind_inv in H as [(w5 & u5 & _ & H)|(e' & H & _)]; [|discriminate].
  apply bind_inv in H as [(w6 & st6 & _ & H)|(e' & H & _)].
  - destruct (patience <=? epochs_no_improve st6); [discriminate|].
    apply bind_inv in H as [(w7 & u7 & _ & H)|(e' & H & _)]; [discriminate|].
    destruct (_ || _ || _); discriminate.
  - unfold early_stopping, state_dict, bind, ret in H.
    destruct (lt _ _); discriminate.
Qed.

Lemma epochs_loop_raises train_loader X_val y_val device epochs patience range :
  forall st w w' e,
  epochs_loop train_loader X_val y_val device epochs patience range st w
    = (w', Raise e) ->
  training_error e = true.
Proof.
  induction range as [|epoch rest IH]; intros st w w' e; simpl; [discriminate|].
  intros [(w1 & r & _ & H)|(e' & H & [= <-])]%bind_inv;
    [|eauto using epoch_body_raises].
  destruct r.2; [discriminate|eauto].
Qed.

Lemma prepare_raises X_train y_train batch_size learning_rate weight_decay device w w' e :
  prepare X_train y_train batch_size learning_rate weight_decay device w
    = (w', Raise e) ->
  training_error e = true /\ history w' = history w.
Proof.
  unfold prepare, to_tensor, model_to, bind, lift, ret, emit, set_optimizer. simpl.
  destruct (decide _); [|destruct (move_parameters _ _)]; simpl;
    (destruct (FloatTensor B (frame_values X_train)); simpl; [|now intros [= <- <-]]);
    (destruct (FloatTensor B (series_values y_train)); simpl; [|now intros [= <- <-]]);
    (destruct (TensorDataset B _ _); simpl; [|now intros [= <- <-]]);
    (destruct (DataLoader B _ _); simpl; [discriminate|now intros [= <- <-]]).
Qed.

Lemma copy_parameters_raises (ps sd : state_dict_t) (h : list (Tensor B)) e :
  copy_parameters ps sd h = Raise e -> training_error e = true.
Proof.
  revert h. induction ps as [|[name dst] rest IH]; intros h; simpl; [discriminate|].
  destruct (list_find _ sd) as [[i [name' src]]|]; [|now intros [= <-]].
  destruct (h !! src); [apply IH|now intros [= <-]].
Qed.

(** The restore step fails for want of a snapshot, or inside the library. *)
Lemma restore_outcome st w w' r :
  restore st w = (w', r) ->
  history w' = history w
  /\ (forall e, r = Raise e ->
        (best_model_state st = None /\ e = UnboundLocalError "best_model_state")
        \/ (is_Some (best_model_state st) /\ training_error e = true)).
Proof.
  unfold restore, load_state_dict, state_dict, bind, ret, raise, emit.
  destruct (best_model_state st) as [sd|]; simpl.
  - destruct (copy_parameters _ _ _) as [h|e'] eqn:Hcopy; simpl;
      intros [= <- <-]; simpl.
    + split; [reflexivity|discriminate].
    + split; [reflexivity|]. intros e [= <-]. right. split; [eauto|].
      eapply copy_parameters_raises, Hcopy.
  - intros [= <- <-]. split; [reflexivity|]. intros e [= <-]. now left.
Qed.

End LoopFacts.

(** ** Facts about the early stopping *)

Section EarlyStoppingFacts.

Implicit Types (st : LoopState) (sd : state_dict_t).

Lemma next_state_improved patience v sd st st' brk :
  lt v (best_val_loss st) = true ->
  next_state patience v sd st = (st', brk) ->
  best_val_loss st' = v /\ epochs_no_improve st' = 0
  /\ best_model_state st' = Some sd /\ brk = (patience <=? 0).
Proof.
  unfold next_state. intros ->. simpl.
  destruct (patience <=? 0); intros [= <- <-]; auto.
Qed.

Lemma next_state_stagnant patience v sd st st' brk :
  lt v (best_val_loss st) = false ->
  next_state patience v sd st = (st', brk) ->
  best_val_loss st' = best_val_loss st
  /\ epochs_no_improve st' = epochs_no_improve st + 1
  /\ best_model_state st' = best_model_state st
  /\ brk = (patience <=? epochs_no_improve st + 1).
Proof.
  unfold next_state. intros ->. simpl.
  destruct (patience <=? _); intros [= <- <-]; auto.
Qed.

Lemma next_state_snapshot patience v sd st st' brk :
  next_state patience v sd st = (st', brk) ->
  best_model_state st' = best_model_state st \/ best_model_state st' = Some sd.
Proof.
  destruct (lt v (best_val_loss st)) eqn:Hlt; intros H.
  - right. now apply (next_state_improved _ _ _ _ _ _ Hlt) in H.
  - left. now apply (next_state_stagnant _ _ _ _ _ _ Hlt) in H.
Qed.

(** A snapshot, once taken, is never lost; every snapshot is [sd]. *)
Lemma loop_path_snapshot patience sd range st vs st' :
  loop_path patience sd range st vs st' ->
  best_model_state st' = best_model_state st \/ best_model_state st' = Some sd.
Proof.
  induction 1 as [st|epoch rest st v st' Hn|epoch rest st v st1 vs st' Hn _ IH].
  - now left.
  - eapply next_state_snapshot, Hn.
  - apply next_state_snapshot in Hn. destruct IH as [IH|IH], Hn as [Hn|Hn];
      rewrite IH; auto.
Qed.

Lemma loop_path_no_epoch patience sd range st st' :
  loop_path patience sd range st [] st' -> st' = st.
Proof. now inversion 1. Qed.

(** When the first executed epoch improves on the best value so far, the
    loop ends with a snapshot. *)
Lemma loop_path_first_improves patience sd range st v vs st' :
  loop_path patience sd range st (v :: vs) st' ->
  lt v (best_val_loss st) = true ->
  best_model_state st' = Some sd.
Proof.
  inversion 1 as [|? ? ? ? ? Hn|? ? ? ? st1 ? ? Hn Hrest]; subst; intros Hlt.
  - now apply (next_state_improved _ _ _ _ _ _ Hlt) in Hn.
  - apply (next_state_improved _ _ _ _ _ _ Hlt) in Hn as (_ & _ & Hs & _).
    apply loop_path_snapshot in Hrest as [Hrest|Hrest]; congruence.
Qed.

(** While no epoch improves on the best value, the loop runs until the
    counter reaches the patience, and no further. *)
Lemma loop_path_stagnation patience sd range st vs st' :
  loop_path patience sd range st vs st' ->
  0 <= epochs_no_improve st < patience ->
  Forall (fun v => lt v (best_val_loss st) = false)
    (take (Z.to_nat (patience - epochs_no_improve st)) vs) ->
  (Z.to_nat (patience - epochs_no_improve st) <= length range)%nat ->
  Z.of_nat (length vs) = patience - epochs_no_improve st.
Proof.
  induction 1 as [st|epoch rest st v st' Hn|epoch rest st v st1 vs st' Hn _ IH];
    intros Hk Hstag Hlen.
  - simpl in Hlen. lia.
  - destruct (Z.to_nat (patience - epochs_no_improve st)) as [|n] eqn:Hn'; [lia|].
    simpl in Hstag. apply Forall_cons in Hstag as [Hv _].
    apply (next_state_stagnant _ _ _ _ _ _ Hv) in Hn as (_ & _ & _ & Hb).
    symmetry in Hb. apply Z.leb_le in Hb. simpl. lia.
  - destruct (Z.to_nat (patience - epochs_no_improve st)) as [|n] eqn:Hn'; [lia|].
    simpl in Hstag, Hlen. apply Forall_cons in Hstag as [Hv Hrest].
    apply (next_state_stagnant _ _ _ _ _ _ Hv) in Hn as (Hbest & Hcount & _ & Hb).
    symmetry in Hb. apply Z.leb_gt in Hb.
    assert (Hn2 : Z.to_nat (patience - epochs_no_improve st1) = n) by lia.
    rewrite Hbest, Hcount in IH. rewrite Hcount in Hn2.
    rewrite Hn2 in IH. simpl length.
    rewrite Nat2Z.inj_succ, IH; [lia|lia|exact Hrest|lia].
Qed.

End EarlyStoppingFacts.

(** ** The validator: claims C4, C9 and C5 *)

(** C4 (code bug). The claim: every non-numeric feature column, and every
    non-numeric target, makes the validator raise [DataTypeError], whatever
    the dtype. The type check compares the dtype with ["object"] only: on a
    feature column of the string dtype it returns normally, and so it does on
    a target of that dtype; the whole validation of such a table ends in a
    [TypeError] of numpy, or passes, and never in a [DataTypeError]. *)
Theorem check_data_types_misses_string_dtype :
  numeric_frame Scenario.positions = false
  /\ check_data_types Scenario.positions Scenario.market_values = OK tt
  /\ numeric_dtype (StringSeries [Some "GK"%string]) = false
  /\ check_data_types Scenario.X_train (StringSeries [Some "GK"%string]) = OK tt
  /\ (forall e, validate Scenario.positions Scenario.market_values = Raise e ->
                DataTypeError e = false).
Proof.
  repeat split. intros e. vm_compute. now intros [= <-].
Qed.

(** What the type check does detect: a column of dtype [object]. *)
Lemma check_columns_object X column vals :
  (column, ObjectSeries vals) ∈ X ->
  exists e, check_columns X = Raise e /\ DataTypeError e = true.
Proof.
  induction X as [|[c s] rest IH]; intros Hin; [now apply elem_of_nil in Hin|].
  apply elem_of_cons in Hin as [Heq|Hin].
  - injection Heq as <- <-. simpl. eauto.
  - simpl. destruct (String.eqb (dtype s) "object"); eauto.
Qed.

(** C9, as stated, fails: an infinite value in a column of objects makes
    [check_for_nan_inf] end in numpy's [TypeError], and a NaN in such a column
    makes the validation of [train_model] end in a [DataTypeError]. *)
Lemma integrity_check_on_objects :
  contains_inf Scenario.X_train (ObjectSeries [PyFloat inf]) = true
  /\ check_for_nan_inf Scenario.X_train (ObjectSeries [PyFloat inf])
     = Raise (TypeError "ufunc 'isfinite' not supported for the input types")
  /\ contains_nan [("x"%string, ObjectSeries [PyFloat nan])] Scenario.market_values = true
  /\ validate [("x"%string, ObjectSeries [PyFloat nan])] Scenario.market_values
     = Raise (ValueError (NonNumericColumn "x"))
  /\ DataIntegrityError (TypeError "ufunc 'isfinite' not supported for the input types") = false
  /\ DataIntegrityError (ValueError (NonNumericColumn "x")) = false.
Proof. repeat split. Qed.

(** C9 (amended). On a table whose columns all have a numeric dtype, the
    validator raises nothing when no value is NaN or infinite, and raises
    [DataIntegrityError] when some value of the features or of the target
    is; this holds of [check_for_nan_inf] alone and of the two checks in
    sequence. *)
Theorem integrity_check_on_numeric_tables X y :
  numeric_frame X = true -> numeric_dtype y = true ->
  validate X y = check_for_nan_inf X y
  /\ (contains_nan X y || contains_inf X y = false -> check_for_nan_inf X y = OK tt)
  /\ (contains_nan X y || contains_inf X y = true ->
      exists e, check_for_nan_inf X y = Raise e /\ DataIntegrityError e = true).
Proof.
  intros HX Hy. split; [|split].
  - unfold validate. now rewrite (check_data_types_numeric X y HX Hy).
  - rewrite (check_for_nan_inf_numeric X y HX Hy).
    intros [-> ->]%orb_false_elim. reflexivity.
  - rewrite (check_for_nan_inf_numeric X y HX Hy).
    destruct (contains_nan X y); [eauto|]. simpl. intros ->. eauto.
Qed.

Lemma integrity_check_on_numeric_tables_witness :
  validate Scenario.X_train (FloatSeries [of_Z 1; inf])
  = check_for_nan_inf Scenario.X_train (FloatSeries [of_Z 1; inf])
  /\ exists e, check_for_nan_inf Scenario.X_train (FloatSeries [of_Z 1; inf]) = Raise e
               /\ DataIntegrityError e = true.
Proof.
  destruct (integrity_check_on_numeric_tables Scenario.X_train (FloatSeries [of_Z 1; inf]))
    as (Hv & _ & Hbad); [reflexivity|reflexivity|].
  split; [exact Hv|]. apply Hbad. reflexivity.
Defined.

(** The validation comes first in [train_model]: when it fails, nothing else
    has run, and the state is the one the call started in. *)
Lemma train_model_validation_fails {B : Backend} X_train y_train X_val y_val
    epochs batch_size learning_rate patience weight_decay device (w : World B) e :
  validate X_train y_train = Raise e ->
  train_model X_train y_train X_val y_val epochs batch_size learning_rate
    patience weight_decay device w = (w, Raise e).
Proof.
  unfold validate, train_model, bind, lift.
  destruct (check_data_types X_train y_train) as [[]|e1]; simpl.
  - now intros ->.
  - now intros [= ->].
Qed.

Lemma train_model_validation_passes {B : Backend} X_train y_train X_val y_val
    epochs batch_size learning_rate patience weight_decay device (w : World B) :
  validate X_train y_train = OK tt ->
  train_model X_train y_train X_val y_val epochs batch_size learning_rate
    patience weight_decay device w
  = (let* setup := prepare X_train y_train batch_size learning_rate weight_decay device in
     let* st := epochs_loop setup.2 X_val y_val setup.1 epochs patience
                  (seq 0 (Z.to_nat epochs)) initial_state in
     restore st) w.
Proof.
  unfold validate, train_model.
  destruct (check_data_types X_train y_train) as [[]|e1] eqn:Ht; simpl; [|discriminate].
  intros Hc. unfold bind at 1, lift at 1. unfold bind at 1, lift at 1.
  now rewrite Hc.
Qed.

(** A NaN or an infinite value in the target never gets through the validation. *)
Lemma validate_nonfinite_target X y :
  series_has isnan y || series_has isinf y = true ->
  exists e, validate X y = Raise e
    /\ (validation_error e = true \/ exists what, e = TypeError what).
Proof.
  intros Hbad. unfold validate.
  destruct (check_data_types X y) as [[]|e] eqn:Htypes; simpl;
    [|exists e; split; [reflexivity|left];
      unfold validation_error; now rewrite (check_data_types_raises X y e Htypes)].
  destruct y as [vals|vals|vals|vals]; try discriminate.
  - unfold check_for_nan_inf.
    destruct (any (frame_isnull X) || any (isnull (FloatSeries vals)));
      [eexists; split; [reflexivity|now left]|].
    destruct (np_isfinite (frame_values X)) as [X_finite|e] eqn:HX; simpl.
    + destruct (negb (all X_finite)); [eexists; split; [reflexivity|now left]|].
      assert (Hy : all (number_isfinite <$> (NFloat <$> vals)) = false).
      { pose proof (series_numbers_finite (FloatSeries vals) eq_refl) as Hfin.
        simpl in Hfin. rewrite Hfin.
        simpl in Hbad. now destruct (existsb isnan vals), (existsb isinf vals). }
      rewrite Hy. eexists; split; [reflexivity|now left].
    + destruct (frame_values X); [discriminate|]. injection HX as <-.
      eexists; split; [reflexivity|right; eauto].
  - unfold check_data_types in Htypes.
    destruct (check_columns X) as [[]|]; discriminate.
Qed.

(** C5, as stated, fails: with a feature column of dtype [object] the run
    stops in the type check, with a [DataTypeError], although the target
    holds a NaN. *)
Lemma type_error_precedes_integrity_error :
  series_has isnan (FloatSeries [nan; of_Z 2]) = true
  /\ Scenario.fit Scenario.clubs (FloatSeries [nan; of_Z 2])
       Scenario.X_val Scenario.y_val 5 2
     = (Scenario.start, Raise (ValueError (NonNumericColumn "club")))
  /\ DataIntegrityError (ValueError (NonNumericColumn "club")) = false.
Proof. repeat split. Qed.

(** The type check stops at a column of dtype [object]. *)
Lemma check_data_types_object X y :
  has_object_dtype X y = true ->
  exists e, check_data_types X y = Raise e /\ DataTypeError e = true.
Proof.
  unfold has_object_dtype, check_data_types.
  induction X as [|[column s] rest IH]; simpl.
  - intros ->. eauto.
  - destruct (String.eqb (dtype s) "object"); simpl; eauto.
Qed.

(** C5 (amended). For every training input with a NaN or an infinite value
    in the target column, [train_model] fails in the up-front validation and
    leaves the state as it found it: no device was resolved, no tensor built,
    no optimizer step taken. The failure is a [DataIntegrityError] whenever
    all feature columns and the target have a numeric dtype, and the
    [DataTypeError] of the type check, which runs first, whenever a feature
    column or the target has dtype [object]. *)
Theorem nonfinite_target_stops_before_training {B : Backend} X_train y_train X_val y_val
    epochs batch_size learning_rate patience weight_decay device (w : World B) :
  series_has isnan y_train || series_has isinf y_train = true ->
  exists e,
    train_model X_train y_train X_val y_val epochs batch_size learning_rate
      patience weight_decay device w = (w, Raise e)
    /\ (numeric_frame X_train = true -> numeric_dtype y_train = true ->
        DataIntegrityError e = true)
    /\ (has_object_dtype X_train y_train = true -> DataTypeError e = true).
Proof.
  intros Hbad.
  destruct (validate_nonfinite_target X_train y_train Hbad) as (e & Hv & _).
  exists e. split; [now apply train_model_validation_fails|]. split.
  - intros HX Hy. unfold validate in Hv.
    rewrite (check_data_types_numeric _ _ HX Hy) in Hv. simpl in Hv.
    rewrite (check_for_nan_inf_numeric _ _ HX Hy) in Hv.
    destruct (contains_nan X_train y_train); [now injection Hv as <-|].
    destruct (contains_inf X_train y_train); [now injection Hv as <-|discriminate].
  - intros Hobj. unfold validate in Hv.
    destruct (check_data_types_object _ _ Hobj) as (e' & He' & Hkind).
    rewrite He' in Hv. simpl in Hv. now injection Hv as <-.
Qed.

Lemma nonfinite_target_stops_before_training_witness :
  (exists e,
     Scenario.fit Scenario.X_train (FloatSeries [nan]) Scenario.X_val Scenario.y_val 5 2
       = (Scenario.start, Raise e)
     /\ DataIntegrityError e = true
     /\ optimizer_steps (trace Scenario.start) = 0%nat)
  /\ (exists e,
        Scenario.fit Scenario.clubs (FloatSeries [inf; of_Z 2])
          Scenario.X_val Scenario.y_val 5 2
          = (Scenario.start, Raise e)
        /\ DataTypeError e = true).
Proof.
  split.
  - destruct (nonfinite_target_stops_before_training (B := Linear.backend)
                Scenario.X_train (FloatSeries [nan]) Scenario.X_val Scenario.y_val
                5 32 Scenario.quarter 2 (of_Z 0) None Scenario.start)
      as (e & Hrun & Hkind & _); [reflexivity|].
    exists e. split; [exact Hrun|]. split; [|reflexivity].
    apply Hkind; reflexivity.
  - destruct (nonfinite_target_stops_before_training (B := Linear.backend)
                Scenario.clubs (FloatSeries [inf; of_Z 2]) Scenario.X_val Scenario.y_val
                5 32 Scenario.quarter 2 (of_Z 0) None Scenario.start)
      as (e & Hrun & _ & Hkind); [reflexivity|].
    exists e. split; [exact Hrun|]. apply Hkind; reflexivity.
Defined.

(** ** The evaluator: claims C7 and C8 *)

(** C7. For every model whose parameters have storages, and every validation
    pair, two calls of the evaluator in succession have the same outcome, the
    same (MSE, RMSE, R²) when it returns, and after either call every
    parameter has the value it had before the first. The model may be in
    training mode before the first call, with layers that draw from the
    generator: the evaluator puts it in evaluation mode before the forward
    pass (line 57), where no draw is made. *)
Theorem evaluate_model_idempotent {B : Backend} X_val y_val device (w : World B) :
  well_formed w ->
  exists w1 w2 outcome,
    evaluate_model X_val y_val device w = (w1, outcome)
    /\ evaluate_model X_val y_val device w1 = (w2, outcome)
    /\ state_values (heap w1) (parameters w1) = state_values (heap w) (parameters w)
    /\ state_values (heap w2) (parameters w2) = state_values (heap w) (parameters w).
Proof.
  intros Hwf.
  destruct (evaluate_model_spec X_val y_val device w Hwf)
    as (w1 & Hrun1 & Hv1 & _ & Hwf1 & _).
  destruct (evaluate_model_spec X_val y_val device w1 Hwf1)
    as (w2 & Hrun2 & Hv2 & _).
  exists w1, w2, (metrics_of (param_values w) X_val y_val).
  repeat split; [exact Hrun1| |exact Hv1|congruence].
  rewrite Hrun2. unfold param_values. now rewrite Hv1.
Qed.

Lemma evaluate_model_idempotent_witness :
  exists w1 w2 outcome,
    evaluate_model Scenario.X_val Scenario.y_val None (Linear.fresh_world (of_Z 3))
      = (w1, outcome)
    /\ evaluate_model Scenario.X_val Scenario.y_val None w1 = (w2, outcome)
    /\ state_values (heap w1) (parameters w1) = [("weight"%string, Some (of_Z 3))]
    /\ state_values (heap w2) (parameters w2) = [("weight"%string, Some (of_Z 3))].
Proof.
  apply (evaluate_model_idempotent (B := Linear.backend)
           Scenario.X_val Scenario.y_val None (Linear.fresh_world (of_Z 3))).
  repeat constructor.
Defined.

(** What the evaluation mode is for. With a dropout layer two forward passes
    of a model in training mode differ, the generator having moved on; two
    evaluations of that model, left in training mode by its caller, agree,
    and leave the generator where it was. *)
Example dropout_needs_evaluation_mode :
  let w := Dropout.fresh_world (of_Z 3) 0 in
  let x : Data Dropout.backend := (2%nat, [of_Z 1]) in
  snd (model_call x w) = OK [of_Z 6]
  /\ snd (model_call x (fst (model_call x w))) = OK [of_Z 0]
  /\ snd (evaluate_model Scenario.X_val Scenario.y_val None w) = OK (of_Z 9, of_Z 3, nan)
  /\ snd (evaluate_model Scenario.X_val Scenario.y_val None
            (fst (evaluate_model Scenario.X_val Scenario.y_val None w)))
     = OK (of_Z 9, of_Z 3, nan)
  /\ generator (fst (evaluate_model Scenario.X_val Scenario.y_val None w)) = 0%nat.
Proof. repeat split. Qed.

(** On the validation sample (1, 0) a model of weight 3 has MSE 9 and RMSE 3;
    R² has no value on a single sample. *)
Example evaluate_weight_three :
  snd (evaluate_model Scenario.X_val Scenario.y_val None (Linear.fresh_world (of_Z 3)))
  = OK (of_Z 9, of_Z 3, nan).
Proof. vm_compute. reflexivity. Qed.

(** C8. Whenever the evaluator returns, the RMSE it returns is [np.sqrt] of
    the MSE it returns. *)
Theorem rmse_is_sqrt_of_mse {B : Backend} X_val y_val device (w w' : World B) mse rmse r2 :
  evaluate_model X_val y_val device w = (w', OK (mse, rmse, r2)) ->
  rmse = np_sqrt B mse.
Proof.
  unfold evaluate_model. intros H.
  bind_split H as w1 u1 H1. bind_split H as w2 tx H2. bind_split H as w3 ty H3.
  bind_split H as w4 u4 H4. bind_split H as w5 o H5. bind_split H as w6 u6 H6.
  bind_split H as w7 mse' H7. bind_split H as w8 r2' H8.
  now injection H as _ <- <- _.
Qed.

Lemma rmse_is_sqrt_of_mse_witness :
  of_Z 3 = SFsqrt 53 1024 (of_Z 9).
Proof.
  apply (rmse_is_sqrt_of_mse (B := Linear.backend) Scenario.X_val Scenario.y_val None
           (Linear.fresh_world (of_Z 3))
           (fst (evaluate_model Scenario.X_val Scenario.y_val None
                   (Linear.fresh_world (of_Z 3))))
           (of_Z 9) (of_Z 3) nan).
  reflexivity.
Defined.

(** ** The course of a run of [train_model] *)

(** A run ends in the validation, in the preparation, in the loop, or in the
    restore step. *)
Lemma train_model_cases {B : Backend} X_train y_train X_val y_val
    epochs batch_size learning_rate patience weight_decay device (w w' : World B) r :
  train_model X_train y_train X_val y_val epochs batch_size learning_rate
    patience weight_decay device w = (w', r) ->
  (exists e, validate X_train y_train = Raise e /\ w' = w /\ r = Raise e)
  \/ (validate X_train y_train = OK tt
      /\ ((exists e, prepare X_train y_train batch_size learning_rate weight_decay device w
                     = (w', Raise e) /\ r = Raise e)
          \/ exists w1 setup,
               prepare X_train y_train batch_size learning_rate weight_decay device w
               = (w1, OK setup)
               /\ ((exists e, epochs_loop setup.2 X_val y_val setup.1 epochs patience
                                (seq 0 (Z.to_nat epochs)) initial_state w1
                              = (w', Raise e) /\ r = Raise e)
                   \/ exists w2 st,
                        epochs_loop setup.2 X_val y_val setup.1 epochs patience
                          (seq 0 (Z.to_nat epochs)) initial_state w1 = (w2, OK st)
                        /\ restore st w2 = (w', r)))).
Proof.
  destruct (validate X_train y_train) as [[]|e] eqn:Hv.
  - rewrite (train_model_validation_passes _ _ _ _ _ _ _ _ _ _ _ Hv).
    intros H. right. split; [reflexivity|].
    apply bind_inv in H as [(w1 & setup & Hprep & H)|(e & Hprep & ->)]; [|left; eauto].
    right. exists w1, setup. split; [exact Hprep|].
    apply bind_inv in H as [(w2 & st & Hloop & H)|(e & Hloop & ->)]; [|left; eauto].
    right. eauto.
  - rewrite (train_model_validation_fails _ _ _ _ _ _ _ _ _ _ _ _ Hv).
    intros [= <- <-]. left. eauto.
Qed.

Lemma app_eq_self_nil {A} (l k : list A) : l = l ++ k -> k = [].
Proof.
  intros H. apply (f_equal length) in H. rewrite length_app in H.
  destruct k; [reflexivity|simpl in H; lia].
Qed.

(** A run that completes executed at least one epoch, and returns the state
    dict of the model with, in the store, the values of the last epoch. *)
Lemma train_model_returns_last_epoch {B : Backend} X_train y_train X_val y_val
    epochs batch_size learning_rate patience weight_decay device (w w' : World B) sd :
  NoDup (parameters w).*1 ->
  train_model X_train y_train X_val y_val epochs batch_size learning_rate
    patience weight_decay device w = (w', OK sd) ->
  exists recs r,
    history w' = history w ++ recs /\ last recs = Some r
    /\ state_values (heap w') sd = rec_values r.
Proof.
  intros Hnd H.
  apply train_model_cases in H
    as [(e & _ & _ & [=])|(_ & [(e & _ & [=])|(w1 & setup & Hprep & H)])].
  destruct H as [(e & _ & [=])|(w2 & st & Hloop & Hrestore)].
  apply prepare_spec in Hprep as (Hd1 & Hn1 & Hh1).
  apply epochs_loop_spec in Hloop as (Hp2 & _ & recs & Hh2 & Hpath & _ & Hval);
    [|exact Hd1].
  assert (Hbest : best_model_state st = Some (parameters w2)).
  { destruct (loop_path_snapshot _ _ _ _ _ _ Hpath) as [Hb|Hb]; [|congruence].
    unfold restore, bind, raise in Hrestore. rewrite Hb in Hrestore.
    simpl in Hrestore. discriminate. }
  apply restore_alias in Hrestore as (Hheap & Hp & -> & Hh); [|congruence|exact Hbest].
  exists recs. destruct (last recs) as [r|] eqn:Hlast.
  - exists r. repeat split; [congruence|]. rewrite Hheap, Hval. reflexivity.
  - apply last_None in Hlast. subst recs. simpl in Hpath.
    apply loop_path_no_epoch in Hpath. subst st. discriminate Hbest.
Qed.

(** ** The returned state: claim C1 *)

(** C1 (code bug). The claim: the returned parameters are those of the epoch
    with the lowest validation MSE. [model.state_dict()] copies nothing, so
    the "best state" is the live parameters and restoring it changes nothing.
    In this run the validation MSE is 16, 36, 49 over the three epochs
    executed: the best epoch is the first, with weight -4, and the run
    returns weight -7, the value after the last epoch. *)
Theorem best_state_is_not_restored :
  let res := Scenario.fit Scenario.X_train Scenario.y_train
               Scenario.X_val Scenario.y_val 5 2 in
  snd res = OK [("weight"%string, 0%nat)]
  /\ (rec_val_mse (B := Linear.backend)) <$> history (fst res)
     = [of_Z 16; of_Z 36; of_Z 49]
  /\ (rec_values (B := Linear.backend)) <$> best_record (history (fst res))
     = Some [("weight"%string, Some (of_Z (-4)))]
  /\ (rec_values (B := Linear.backend)) <$> last (history (fst res))
     = Some [("weight"%string, Some (of_Z (-7)))]
  /\ state_values (B := Linear.backend) (heap (fst res)) [("weight"%string, 0%nat)]
     = [("weight"%string, Some (of_Z (-7)))].
Proof. repeat split. Qed.

(** ** The best-state snapshot and the early stopping: claims C2 and C3 *)

(** C2 (code bug). The claim: with [epochs >= 1] the snapshot is defined
    when the restore step executes. [best_model_state] is assigned under
    [val_mse < best_val_loss] only, and the first validation MSE need not be
    below the infinite baseline. With the validation target 1e20, finite in
    float32, the squared error overflows in float32: the MSE of the only
    epoch is +inf, [inf < inf] is false, no snapshot is taken, and the
    restore step of this run with [epochs = 1] reads a local that was never
    assigned, as it does with [epochs = 0]. *)
Theorem snapshot_missing_after_infinite_mse :
  let res := Scenario.fit Scenario.X_train Scenario.y_train
               Scenario.X_val (FloatSeries [Scenario.huge]) 1 2 in
  isfinite (Linear.single Scenario.huge) = true
  /\ snd res = Raise (UnboundLocalError "best_model_state")
  /\ (rec_val_mse (B := Linear.backend)) <$> history (fst res) = [inf]
  /\ lt inf inf = false
  /\ optimizer_steps (trace (fst res)) = 1%nat.
Proof. repeat split. Qed.

(** X15. In every run whose first epoch has a validation MSE below +inf
    (neither NaN nor +inf), the snapshot is defined when the restore step
    executes: the run does not fail for an unassigned [best_model_state].
    With [epochs = 0], once the validation and the preparation have passed,
    no snapshot is created and the restore step fails with that error. *)
Theorem snapshot_defined_at_restore {B : Backend} X_train y_train X_val y_val
    epochs batch_size learning_rate patience weight_decay device (w w' : World B) r :
  train_model X_train y_train X_val y_val epochs batch_size learning_rate
    patience weight_decay device w = (w', r) ->
  (forall r1 rest,
     history w' = history w ++ r1 :: rest ->
     lt (rec_val_mse r1) inf = true ->
     r <> Raise (UnboundLocalError "best_model_state"))
  /\ (epochs = 0 ->
      forall w1 setup,
        validate X_train y_train = OK tt ->
        prepare X_train y_train batch_size learning_rate weight_decay device w
          = (w1, OK setup) ->
        w' = w1 /\ r = Raise (UnboundLocalError "best_model_state")).
Proof.
  intros H. split.
  - intros r1 rest Hhist Hlt.
    apply train_model_cases in H
      as [(e & _ & -> & _)|(_ & [(e & Hprep & _)|(w1 & setup & Hprep & H)])].
    + now apply app_eq_self_nil in Hhist.
    + apply prepare_raises in Hprep as [_ Hh]. rewrite Hh in Hhist.
      now apply app_eq_self_nil in Hhist.
    + apply prepare_spec in Hprep as (Hd1 & _ & Hh1).
      destruct H as [(e & Hloop & ->)|(w2 & st & Hloop & Hrestore)].
      * apply epochs_loop_raises in Hloop. intros [= ->]. discriminate.
      * apply epochs_loop_spec in Hloop as (_ & _ & recs & Hh2 & Hpath & _);
          [|exact Hd1].
        apply restore_outcome in Hrestore as [Hh Hfail].
        rewrite Hh, Hh2, Hh1 in Hhist. apply app_inv_head in Hhist. subst recs.
        rewrite fmap_cons in Hpath.
        apply loop_path_first_improves in Hpath; [|exact Hlt].
        intros ->. destruct (Hfail _ eq_refl) as [[Hnone _]|[_ Herr]];
          [congruence|discriminate].
  - intros -> w1 setup Hv Hprep.
    rewrite (train_model_validation_passes _ _ _ _ _ _ _ _ _ _ _ Hv) in H.
    rewrite (bind_step _ _ _ _ _ Hprep) in H. simpl in H.
    unfold bind, ret, restore, raise in H. simpl in H.
    now injection H as <- <-.
Qed.

Lemma snapshot_defined_at_restore_witness :
  snd (Scenario.fit Scenario.X_train Scenario.y_train Scenario.X_val Scenario.y_val 5 2)
    <> Raise (UnboundLocalError "best_model_state")
  /\ snd (Scenario.fit Scenario.X_train Scenario.y_train Scenario.X_val Scenario.y_val 0 2)
     = Raise (UnboundLocalError "best_model_state").
Proof.
  split.
  - apply (proj1 (snapshot_defined_at_restore (B := Linear.backend)
                    Scenario.X_train Scenario.y_train Scenario.X_val Scenario.y_val
                    5 32 Scenario.quarter 2 (of_Z 0) None Scenario.start _ _
                    (surjective_pairing _))
             (Scenario.epoch_record 0 16 (-4))
             [Scenario.epoch_record 1 36 (-6); Scenario.epoch_record 2 49 (-7)]).
    + reflexivity.
    + reflexivity.
  - apply (proj2 (snapshot_defined_at_restore (B := Linear.backend)
                    Scenario.X_train Scenario.y_train Scenario.X_val Scenario.y_val
                    0 32 Scenario.quarter 2 (of_Z 0) None Scenario.start _ _
                    (surjective_pairing _))
             eq_refl
             (fst (prepare (B := Linear.backend) Scenario.X_train Scenario.y_train 32
                     Scenario.quarter (of_Z 0) None Scenario.start))
             (cpu, [((3%nat, [of_Z 1]), (1%nat, [of_Z (-8)]))])).
    + reflexivity.
    + reflexivity.
Defined.

(** C3, as stated, fails in two ways. When the first validation MSE is +inf
    (the validation target 1e20 makes the squared error overflow in float32)
    it is the lowest of the run without being an improvement on the
    baseline: with patience 2 the loop stops after 2 epochs, not 3. And with
    a negative patience the loop stops after the first epoch: with patience
    -1 and [epochs = 1] it executes 1 epoch, not 0. *)
Lemma early_stop_not_after_one_plus_patience :
  (rec_val_mse (B := Linear.backend)) <$>
    history (fst (Scenario.fit Scenario.X_train Scenario.y_train
                    Scenario.X_val (FloatSeries [Scenario.huge]) 5 2))
  = [inf; inf]
  /\ (rec_val_mse (B := Linear.backend)) <$>
       history (fst (Scenario.fit Scenario.X_train Scenario.y_train
                       Scenario.X_val Scenario.y_val 1 (-1)))
     = [of_Z 16].
Proof. split; reflexivity. Qed.

(** C3 (amended). With a patience that is not negative, in every completed
    run whose first epoch improves on the infinite baseline (its validation
    MSE is below +inf) and in which each of the next [patience] epochs fails
    to strictly improve on the first, the loop executes exactly
    [1 + patience] epochs, provided [1 + patience <= epochs]. *)
Theorem stops_after_one_plus_patience {B : Backend} X_train y_train X_val y_val
    epochs batch_size learning_rate patience weight_decay device
    (w w' : World B) sd r1 rest :
  0 <= patience ->
  1 + patience <= epochs ->
  train_model X_train y_train X_val y_val epochs batch_size learning_rate
    patience weight_decay device w = (w', OK sd) ->
  history w' = history w ++ r1 :: rest ->
  lt (rec_val_mse r1) inf = true ->
  Forall (fun r => lt (rec_val_mse r) (rec_val_mse r1) = false)
    (take (Z.to_nat patience) rest) ->
  Z.of_nat (length (r1 :: rest)) = 1 + patience.
Proof.
  intros Hpat Hepochs H Hhist Hlt Hstag.
  change inf with (best_val_loss initial_state) in Hlt.
  apply train_model_cases in H
    as [(e & _ & _ & [=])|(_ & [(e & _ & [=])|(w1 & setup & Hprep & H)])].
  destruct H as [(e & _ & [=])|(w2 & st & Hloop & Hrestore)].
  apply prepare_spec in Hprep as (Hd1 & _ & Hh1).
  apply epochs_loop_spec in Hloop as (_ & _ & recs & Hh2 & Hpath & _); [|exact Hd1].
  apply restore_outcome in Hrestore as [Hh _].
  rewrite Hh, Hh2, Hh1 in Hhist. apply app_inv_head in Hhist. subst recs.
  rewrite fmap_cons in Hpath.
  inversion Hpath as [|epoch range st0 v st1 Hn Hrange
                      |epoch range st0 v st1 vs st2 Hn Hrest Hrange]; subst.
  - apply (next_state_improved _ _ _ _ _ _ Hlt) in Hn as (_ & _ & _ & Hb).
    symmetry in Hb. apply Z.leb_le in Hb.
    assert (rest = []) as -> by (now destruct rest). simpl. lia.
  - apply (next_state_improved _ _ _ _ _ _ Hlt) in Hn as (Hbest & Hcount & _ & Hb).
    symmetry in Hb. apply Z.leb_gt in Hb.
    assert (Hlen : length range = (Z.to_nat epochs - 1)%nat).
    { apply (f_equal length) in Hrange. rewrite length_seq in Hrange.
      simpl in Hrange. lia. }
    apply loop_path_stagnation in Hrest.
    + rewrite Hcount in Hrest. rewrite length_fmap in Hrest.
      simpl length. lia.
    + lia.
    + rewrite Hcount, Hbest, Z.sub_0_r, <- fmap_take.
      apply Forall_fmap. exact Hstag.
    + rewrite Hcount, Hlen. lia.
Qed.

(** The run of [Scenario]: three epochs, then the early stop. *)
Lemma stalled_run_completes :
  snd (Scenario.fit Scenario.X_train Scenario.y_train Scenario.X_val Scenario.y_val 5 2)
  = OK [("weight"%string, 0%nat)].
Proof. reflexivity. Qed.

Lemma stalled_run :
  Scenario.fit Scenario.X_train Scenario.y_train Scenario.X_val Scenario.y_val 5 2
  = (fst (Scenario.fit Scenario.X_train Scenario.y_train Scenario.X_val Scenario.y_val 5 2),
     OK [("weight"%string, 0%nat)]).
Proof.
  rewrite <- stalled_run_completes.
  apply surjective_pairing.
Qed.

Lemma stalled_history :
  history (fst (Scenario.fit Scenario.X_train Scenario.y_train Scenario.X_val Scenario.y_val 5 2))
  = history Scenario.start ++ Scenario.epoch_record 0 16 (-4) ::
    [Scenario.epoch_record 1 36 (-6); Scenario.epoch_record 2 49 (-7)].
Proof. reflexivity. Qed.

Lemma stops_after_one_plus_patience_witness :
  Z.of_nat (length [Scenario.epoch_record 0 16 (-4); Scenario.epoch_record 1 36 (-6);
                    Scenario.epoch_record 2 49 (-7)]) = 1 + 2.
Proof.
  assert (H0 : 0 <= 2) by lia.
  assert (H1 : 1 + 2 <= 5) by lia.
  assert (H3 : lt (rec_val_mse (Scenario.epoch_record 0 16 (-4))) inf = true) by reflexivity.
  assert (H4 : Forall (fun r : EpochRecord Linear.backend =>
                   lt (rec_val_mse r) (rec_val_mse (Scenario.epoch_record 0 16 (-4))) = false)
                (take (Z.to_nat 2) [Scenario.epoch_record 1 36 (-6); Scenario.epoch_record 2 49 (-7)]))
    by (repeat constructor).
  exact (stops_after_one_plus_patience (B := Linear.backend)
           Scenario.X_train Scenario.y_train Scenario.X_val Scenario.y_val
           5 32 Scenario.quarter 2 (of_Z 0) None Scenario.start
           (fst (Scenario.fit Scenario.X_train Scenario.y_train
                   Scenario.X_val Scenario.y_val 5 2))
           [("weight"%string, 0%nat)]
           (Scenario.epoch_record 0 16 (-4))
           [Scenario.epoch_record 1 36 (-6); Scenario.epoch_record 2 49 (-7)]
           H0 H1 stalled_run stalled_history H3 H4).
Defined.

(** ** A loss that is not finite: claim C6 *)

Section NonFiniteLoss.

Context {B : Backend}.

Lemma train_batches_app epoch (done rest : list (Data B * Data B)) total (w : World B) :
  train_batches epoch (done ++ rest) total w
  = (let* t := train_batches epoch done total in train_batches epoch rest t) w.
Proof.
  revert total w. induction done as [|batch done IH]; intros total w; simpl.
  - reflexivity.
  - unfold bind. destruct (train_batch epoch batch w) as [w1 [loss|e]];
      [|reflexivity].
    rewrite IH. reflexivity.
Qed.

(** The batch is abandoned right after its forward pass. *)
Lemma train_batch_nonfinite epoch batch (w : World B) o :
  forward B (forward_mode w) (param_values w) batch.1 = Returned o ->
  isnan (MSELoss B (view_flat B o) batch.2)
    || isinf (MSELoss B (view_flat B o) batch.2) = true ->
  train_batch epoch batch w
  = (after_failed_forward batch.1 w, Raise (ValueError (NaNOrInfInLoss epoch))).
Proof.
  intros Hforward Hloss.
  unfold train_batch, zero_grad, model_call, bind, raise, emit, set_grad. simpl.
  unfold forward_mode, param_values in *. simpl. rewrite Hforward. simpl. rewrite Hloss.
  unfold after_failed_forward, draw, set_generator, param_values. simpl.
  destruct (training w); simpl; now rewrite <- app_assoc.
Qed.

End NonFiniteLoss.

(** C6. When, in some epoch, the batches before [batch] have been trained
    and the loss of [batch] is NaN or infinite, the loop ends there with
    [NumericalInstabilityError], whatever batches and epochs remain and
    whatever follows the loop. No backward pass and no optimizer step has run
    for the batch: the trace gains [zero_grad] and the forward pass only, and
    the parameter values, the optimizer state and the epoch records are
    those from before the batch. *)
Theorem nonfinite_loss_aborts {B : Backend} train_loader X_val y_val device epochs patience
    epoch later st (w0 w : World B) done batch rest total o :
  loader_iter B train_loader epoch = done ++ batch :: rest ->
  train_batches epoch done (of_Z 0) (fst (model_train w0)) = (w, OK total) ->
  forward B (forward_mode w) (param_values w) batch.1 = Returned o ->
  isnan (MSELoss B (view_flat B o) batch.2)
    || isinf (MSELoss B (view_flat B o) batch.2) = true ->
  exists w',
    (forall A (k : LoopState -> M B A),
       (let* st' := epochs_loop train_loader X_val y_val device epochs patience
                      (epoch :: later) st in k st') w0
       = (w', Raise (ValueError (NaNOrInfInLoss epoch))))
    /\ NumericalInstabilityError (ValueError (NaNOrInfInLoss epoch)) = true
    /\ trace w' = trace w ++ [ZeroGrad; ForwardPass]
    /\ optimizer_steps (trace w') = optimizer_steps (trace w)
    /\ state_values (heap w') (parameters w') = state_values (heap w) (parameters w)
    /\ optimizer w' = optimizer w
    /\ history w' = history w.
Proof.
  intros Hiter Hdone Hforward Hloss.
  exists (after_failed_forward batch.1 w). split; [|split; [reflexivity|]].
  - intros A k. apply bind_raise. simpl. apply bind_raise.
    unfold epoch_body. unfold bind at 1.
    destruct (model_train w0) as [w1 [[]|e]] eqn:Htrain; [|discriminate].
    simpl in Hdone. apply bind_raise.
    rewrite Hiter, train_batches_app. rewrite (bind_step _ _ _ _ _ Hdone).
    simpl. apply bind_raise. now apply (train_batch_nonfinite epoch batch w o).
  - unfold after_failed_forward, optimizer_steps. simpl.
    rewrite List.filter_app. simpl. rewrite app_nil_r. auto.
Qed.

Lemma nonfinite_loss_aborts_witness :
  exists w' : World Linear.backend,
    trace w' = [ZeroGrad; ForwardPass]
    /\ optimizer_steps (trace w') = 0%nat
    /\ state_values (heap w') (parameters w') = [("weight"%string, Some (of_Z 0))].
Proof.
  destruct (nonfinite_loss_aborts (B := Linear.backend)
              [((3%nat, [of_Z 1]), (1%nat, [Linear.single Scenario.huge]))]
              Scenario.X_val Scenario.y_val cpu 5 2 0%nat [1%nat; 2%nat] initial_state
              Scenario.start (fst (model_train Scenario.start))
              [] ((3%nat, [of_Z 1]), (1%nat, [Linear.single Scenario.huge])) []
              (of_Z 0) [of_Z 0]
              eq_refl eq_refl eq_refl eq_refl)
    as (w' & _ & _ & Htrace & Hsteps & Hvalues & _).
  exists w'. repeat split; assumption.
Defined.

(** The same in a whole run: the training target 1e20 makes the loss of the
    first batch infinite; the run ends at epoch 0 with the weight untouched
    and without any optimizer step. *)
Example nonfinite_loss_run :
  snd (Scenario.fit Scenario.X_train (FloatSeries [Scenario.huge])
         Scenario.X_val Scenario.y_val 3 2)
  = Raise (ValueError (NaNOrInfInLoss 0))
  /\ heap (fst (Scenario.fit Scenario.X_train (FloatSeries [Scenario.huge])
                  Scenario.X_val Scenario.y_val 3 2)) = [of_Z 0]
  /\ optimizer_steps
       (trace (fst (Scenario.fit Scenario.X_train (FloatSeries [Scenario.huge])
                      Scenario.X_val Scenario.y_val 3 2))) = 0%nat.
Proof. repeat split. Qed.

(** ** The validation split: claim C10 *)

(** *** Every part of a run only adds to the trace *)

Section TraceFacts.

Context {B : Backend}.

Implicit Types (w : World B) (st : LoopState).

Lemma grows_ret {A} (a : A) : grows (B := B) (ret a).
Proof. now intros w w' r [= <- _]. Qed.

Lemma grows_raise {A} e : grows (B := B) (raise (A := A) e).
Proof. now intros w w' r [= <- _]. Qed.

Lemma grows_lift {A} (x : result A) : grows (B := B) (lift x).
Proof. now intros w w' r [= <- _]. Qed.

Lemma grows_emit (e : Event B) : grows (emit e).
Proof. intros w w' r [= <- _]. simpl. now apply prefix_app_r. Qed.

Lemma grows_bind {A C} (m : M B A) (k : A -> M B C) :
  grows m -> (forall a, grows (k a)) -> grows (bind m k).
Proof.
  intros Hm Hk w w' r [(w1 & a & H1 & H2)|(e & H1 & _)]%bind_inv.
  - etransitivity; [eapply Hm, H1|eapply Hk, H2].
  - eapply Hm, H1.
Qed.

Lemma grows_set_training b : grows (B := B) (set_training b).
Proof. now intros w w' r [= <- _]. Qed.

Lemma grows_set_grad g : grows (B := B) (set_grad g).
Proof. now intros w w' r [= <- _]. Qed.

Lemma grows_set_optimizer o : grows (B := B) (set_optimizer o).
Proof. now intros w w' r [= <- _]. Qed.

Lemma grows_record_epoch (rec : EpochRecord B) : grows (record_epoch rec).
Proof. now intros w w' r [= <- _]. Qed.

Lemma grows_state_dict : grows (B := B) state_dict.
Proof. now intros w w' r [= <- _]. Qed.

Lemma grows_model_to d : grows (B := B) (model_to d).
Proof.
  intros w w' r. unfold model_to.
  destruct (decide _); [|destruct (move_parameters _ _)]; intros [= <- _]; simpl;
    [reflexivity|now apply prefix_app_r].
Qed.

Lemma grows_model_call (x : Data B) : grows (model_call x).
Proof.
  intros w w' r. unfold model_call, draw, set_generator, emit.
  destruct (forward B _ _ x), (training w); intros [= <- _]; simpl;
    (reflexivity || now apply prefix_app_r).
Qed.

Lemma grows_load_state_dict sd : grows (B := B) (load_state_dict sd).
Proof.
  intros w w' r. unfold load_state_dict, emit, set_heap.
  destruct (copy_parameters _ _ _); intros [= <- _]; simpl;
    [now apply prefix_app_r|reflexivity].
Qed.

Lemma grows_optimizer_step : grows (B := B) optimizer_step.
Proof.
  intros w w' r. unfold optimizer_step, emit.
  destruct (optimizer w), (grad w); try destruct (Adam_step B _ _ _);
    intros [= <- _]; simpl; now apply prefix_app_r.
Qed.

Lemma grows_loss_backward mode (x y : Data B) : grows (loss_backward mode x y).
Proof.
  intros w w' r. unfold loss_backward, bind, set_grad, emit.
  intros [= <- _]. simpl. now apply prefix_app_r.
Qed.

Lemma grows_note_epoch epoch v : grows (B := B) (note_epoch epoch v).
Proof. now intros w w' r [= <- _]. Qed.

Create HintDb grows.

#[local] Hint Resolve grows_ret grows_raise grows_lift grows_emit grows_set_training
  grows_set_grad grows_set_optimizer grows_record_epoch grows_state_dict
  grows_model_to grows_model_call grows_load_state_dict grows_optimizer_step
  grows_loss_backward grows_note_epoch : grows.

(** Decomposes a computation along its [bind]s and its tests. *)
Ltac grows_step :=
  match goal with
  | |- grows (bind _ _) => apply grows_bind; [|intro]
  | |- grows (if ?b then _ else _) => destruct b
  | |- grows (match ?x with _ => _ end) => destruct x
  | |- grows _ => solve [auto with grows]
  end.

(** The same for the rest of a run, [H : m w = (w', r)]. *)
Ltac grows_in H :=
  match type of H with
  | ?m _ = _ =>
      let G := fresh in
      assert (G : grows m) by (repeat grows_step); apply G in H
  end.

Lemma grows_to_tensor a : grows (B := B) (to_tensor a).
Proof. unfold to_tensor. repeat grows_step. Qed.

#[local] Hint Resolve grows_to_tensor : grows.

Lemma grows_evaluate_model X_val y_val device :
  grows (B := B) (evaluate_model X_val y_val device).
Proof. unfold evaluate_model, model_eval. repeat grows_step. Qed.

Lemma grows_train_batch epoch (batch : Data B * Data B) : grows (train_batch epoch batch).
Proof.
  unfold train_batch, zero_grad. apply grows_bind; [repeat grows_step|intros _].
  intros w w' r H. cbv beta zeta in H. now grows_in H.
Qed.

#[local] Hint Resolve grows_evaluate_model grows_train_batch : grows.

Lemma grows_train_batches epoch (batches : list (Data B * Data B)) total :
  grows (train_batches epoch batches total).
Proof.
  revert total. induction batches as [|batch rest IH]; intros total; simpl.
  - apply grows_ret.
  - apply grows_bind; [apply grows_train_batch|intro; apply IH].
Qed.

Lemma grows_early_stopping v st : grows (B := B) (early_stopping v st).
Proof. unfold early_stopping. repeat grows_step. Qed.

Lemma grows_restore st : grows (B := B) (restore st).
Proof. unfold restore. repeat grows_step. Qed.

#[local] Hint Resolve grows_train_batches grows_early_stopping : grows.

(** The end of an epoch, from the evaluation on. *)
Lemma epoch_body_from_evaluation train_loader X_val y_val device epochs patience
    epoch st w w1 total w' r :
  train_batches epoch (loader_iter B train_loader epoch) (of_Z 0) (fst (model_train w))
    = (w1, OK total) ->
  loader_len B train_loader <> 0 ->
  epoch_body train_loader X_val y_val device epochs patience epoch st w = (w', r) ->
  exists w2 r2,
    evaluate_model X_val y_val (Some device) w1 = (w2, r2)
    /\ trace w2 `prefix_of` trace w'
    /\ (forall e, r2 = Raise e -> w' = w2 /\ r = Raise e).
Proof.
  intros Hbatches Hlen. unfold epoch_body.
  unfold bind at 1. unfold model_train at 1, set_training at 1.
  unfold model_train, set_training in Hbatches. simpl in Hbatches.
  rewrite (bind_step _ _ _ _ _ Hbatches).
  apply Z.eqb_neq in Hlen. rewrite Hlen.
  unfold bind at 1, ret at 1.
  intros [(w2 & metrics & Heval & H)|(e & Heval & ->)]%bind_inv.
  - exists w2, (OK metrics). split; [exact Heval|]. split; [|discriminate].
    now grows_in H.
  - exists w', (Raise e). split; [exact Heval|]. split; [reflexivity|].
    now intros e' [= <-].
Qed.

Lemma grows_epoch_body train_loader X_val y_val device epochs patience epoch st :
  grows (B := B) (epoch_body train_loader X_val y_val device epochs patience epoch st).
Proof.
  unfold epoch_body, model_train. repeat grows_step.
Qed.

Lemma grows_epochs_loop train_loader X_val y_val device epochs patience range :
  forall st,
  grows (B := B) (epochs_loop train_loader X_val y_val device epochs patience range st).
Proof.
  induction range as [|epoch rest IH]; intros st; simpl.
  - apply grows_ret.
  - apply grows_bind; [apply grows_epoch_body|].
    intros [st1 []]; simpl; [apply grows_ret|apply IH].
Qed.

(** What the evaluator does with a split, on the device the model is on:
    when the features cannot be made a tensor it stops there; when both
    conversions and the forward pass succeed, the metric functions are called
    on the tensors as they are. *)
Lemma evaluate_model_refuses X_val y_val d w what :
  model_device w = d ->
  FloatTensor B (frame_values X_val) = Failed what ->
  evaluate_model X_val y_val (Some d) w = (w, Raise (LibraryError what)).
Proof.
  intros Hd Htx. unfold evaluate_model. simpl resolve_device.
  rewrite (bind_step _ _ _ _ _ (model_to_same d w Hd)).
  unfold to_tensor, bind, lift. now rewrite Htx.
Qed.

Lemma evaluate_model_reaches_metrics X_val y_val d w tx ty o :
  model_device w = d ->
  FloatTensor B (frame_values X_val) = Returned tx ->
  FloatTensor B (series_values y_val) = Returned ty ->
  forward B None (param_values w) tx = Returned o ->
  exists w1 out,
    evaluate_model X_val y_val (Some d) w = (w1, out)
    /\ trace w1 = trace w ++
         [TensorBuilt (frame_values X_val); TensorBuilt (series_values y_val);
          ForwardPass; MetricsComputed ty (view_flat B o)].
Proof.
  intros Hd Htx Hty Hforward.
  unfold evaluate_model. simpl resolve_device.
  rewrite (bind_step _ _ _ _ _ (model_to_same d w Hd)).
  unfold to_tensor, model_eval, model_call, forward_mode, draw, bind, lift, ret,
    emit, set_training.
  rewrite Htx, Hty. simpl. unfold param_values in *. simpl. rewrite Hforward. simpl.
  destruct (mean_squared_error B ty (view_flat B o)); simpl;
    [destruct (r2_score B ty (view_flat B o)); simpl|];
    eexists _, _; (split; [reflexivity|]); simpl;
    now rewrite <- !app_assoc.
Qed.

End TraceFacts.

(** C10, as stated, fails in its last part: a validation split with a
    column that is not numeric passes the validation and the training of the
    first epoch, one optimizer step included, but never reaches the metric
    computation: the tensor conversion of the evaluator refuses it. *)
Lemma text_column_stops_at_conversion :
  numeric_frame Scenario.positions = false
  /\ snd (Scenario.fit Scenario.X_train Scenario.y_train
            Scenario.positions Scenario.market_values 3 2)
     = Raise (LibraryError "TypeError: can't convert np.ndarray of type numpy.object_")
  /\ optimizer_steps
       (trace (fst (Scenario.fit Scenario.X_train Scenario.y_train
                      Scenario.positions Scenario.market_values 3 2))) = 1%nat
  /\ metrics_computed
       (trace (fst (Scenario.fit Scenario.X_train Scenario.y_train
                      Scenario.positions Scenario.market_values 3 2))) = false.
Proof. repeat split. Qed.

(** C10 (amended). The validation looks at the training split only. Once the
    training split has passed it, the preparation has succeeded and the
    batches of the first epoch have been trained, a run with any validation
    split whatever has come that far, to the state [w2]: nothing was raised
    for the split before the training began. The split is then handed to the
    evaluator as it is. When the library converts it to tensors and the
    forward pass succeeds, the metric functions are called on those tensors,
    NaN and infinite values included; when the library refuses the
    conversion of the features, the run ends there, in the state [w2]. *)
Theorem validation_split_is_not_validated {B : Backend} X_train y_train
    epochs batch_size learning_rate patience weight_decay device
    (w w1 w2 : World B) setup total :
  validate X_train y_train = OK tt ->
  0 < epochs ->
  prepare X_train y_train batch_size learning_rate weight_decay device w
    = (w1, OK setup) ->
  train_batches 0 (loader_iter B setup.2 0) (of_Z 0) (fst (model_train w1))
    = (w2, OK total) ->
  loader_len B setup.2 <> 0 ->
  forall X_val y_val,
  exists w' r later,
    train_model X_train y_train X_val y_val epochs batch_size learning_rate
      patience weight_decay device w = (w', r)
    /\ trace w' = trace w2 ++ later
    /\ (forall tx ty o,
          FloatTensor B (frame_values X_val) = Returned tx ->
          FloatTensor B (series_values y_val) = Returned ty ->
          forward B None (param_values w2) tx = Returned o ->
          [TensorBuilt (frame_values X_val); TensorBuilt (series_values y_val);
           ForwardPass; MetricsComputed ty (view_flat B o)] `prefix_of` later)
    /\ (forall what,
          FloatTensor B (frame_values X_val) = Failed what ->
          w' = w2 /\ r = Raise (LibraryError what)).
Proof.
  intros Hv Hepochs Hprep Hbatches Hlen X_val y_val.
  destruct (train_model X_train y_train X_val y_val epochs batch_size learning_rate
              patience weight_decay device w) as [w' r] eqn:H.
  rewrite (train_model_validation_passes _ _ _ _ _ _ _ _ _ _ _ Hv) in H.
  rewrite (bind_step _ _ _ _ _ Hprep) in H.
  assert (Hd : model_device w2 = setup.1).
  { apply prepare_spec in Hprep as (Hd1 & _).
    apply train_batches_frame in Hbatches as (_ & Hd2 & _). now rewrite Hd2. }
  destruct (Z.to_nat epochs) as [|n] eqn:Hn; [lia|].
  change (seq 0 (S n)) with (0%nat :: seq 1 n) in H. simpl epochs_loop in H.
  assert (Hrun : exists w3 r3,
             evaluate_model X_val y_val (Some setup.1) w2 = (w3, r3)
             /\ trace w3 `prefix_of` trace w'
             /\ (forall e, r3 = Raise e -> w' = w3 /\ r = Raise e)).
  { apply bind_inv in H as [(wa & st & Hloop & Hrestore)|(e & Hloop & ->)].
    - apply grows_restore in Hrestore.
      apply bind_inv in Hloop as [(wb & rb & Hbody & Hrest)|(e & Hbody & [=])].
      eapply epoch_body_from_evaluation in Hbody as (w3 & r3 & Heval & Hpre & Hfail);
        [|exact Hbatches|exact Hlen].
      exists w3, r3. split; [exact Heval|]. split.
      + etransitivity; [exact Hpre|]. etransitivity; [|exact Hrestore].
        destruct rb as [stb []]; simpl in Hrest.
        * now injection Hrest as <- _.
        * eapply grows_epochs_loop, Hrest.
      + intros e ->. now destruct (Hfail e eq_refl).
    - apply bind_inv in Hloop as [(wb & rb & Hbody & Hrest)|(e' & Hbody & [= <-])].
      + eapply epoch_body_from_evaluation in Hbody as (w3 & r3 & Heval & Hpre & Hfail);
          [|exact Hbatches|exact Hlen].
        exists w3, r3. split; [exact Heval|]. split.
        * etransitivity; [exact Hpre|].
          destruct rb as [stb []]; simpl in Hrest; [discriminate|].
          eapply grows_epochs_loop, Hrest.
        * intros e' ->. now destruct (Hfail e' eq_refl).
      + eapply epoch_body_from_evaluation in Hbody as (w3 & r3 & Heval & Hpre & Hfail);
          [|exact Hbatches|exact Hlen].
        exists w3, r3. split; [exact Heval|]. split; [exact Hpre|].
        intros e'' ->. destruct (Hfail e'' eq_refl) as [-> [= ->]]. auto. }
  destruct Hrun as (w3 & r3 & Heval & Hpre & Hfail).
  pose proof (grows_evaluate_model _ _ _ _ _ _ Heval) as [mid Hmid].
  destruct Hpre as [tail Htail].
  exists w', r, (mid ++ tail). split; [reflexivity|]. split; [|split].
  - now rewrite Htail, Hmid, <- app_assoc.
  - intros tx ty o Htx Hty Hforward.
    destruct (evaluate_model_reaches_metrics X_val y_val _ w2 tx ty o Hd Htx Hty Hforward)
      as (w3' & out & Heval' & Htrace).
    rewrite Heval in Heval'. injection Heval' as <- <-.
    rewrite Hmid in Htrace. apply app_inv_head in Htrace. subst mid.
    now apply prefix_app_r.
  - intros what Htx.
    rewrite (evaluate_model_refuses X_val y_val _ w2 what Hd Htx) in Heval.
    injection Heval as <- <-. now apply Hfail.
Qed.

(** A NaN feature and an infinite target of the validation split do reach
    the metric computation, after the first optimizer step; it is
    scikit-learn that refuses them there. *)
Example nan_reaches_the_metrics :
  snd (Scenario.fit Scenario.X_train Scenario.y_train
         [("x"%string, FloatSeries [nan])] (FloatSeries [inf]) 3 2)
  = Raise (LibraryError
             "ValueError: Input contains infinity or a value too large for dtype('float32').")
  /\ metrics_computed
       (trace (fst (Scenario.fit Scenario.X_train Scenario.y_train
                      [("x"%string, FloatSeries [nan])] (FloatSeries [inf]) 3 2))) = true.
Proof. repeat split. Qed.

(** The preparation of the runs of [Scenario], and the training of their
    first epoch. *)
Lemma scenario_preparation :
  prepare (B := Linear.backend) Scenario.X_train Scenario.y_train 32 Scenario.quarter
    (of_Z 0) None Scenario.start
  = (fst (prepare (B := Linear.backend) Scenario.X_train Scenario.y_train 32
            Scenario.quarter (of_Z 0) None Scenario.start),
     OK (cpu, [((3%nat, [of_Z 1]), (1%nat, [of_Z (-8)]))])).
Proof. reflexivity. Qed.

Lemma scenario_first_epoch :
  train_batches (B := Linear.backend) 0 [((3%nat, [of_Z 1]), (1%nat, [of_Z (-8)]))] (of_Z 0)
    (fst (model_train
            (fst (prepare (B := Linear.backend) Scenario.X_train Scenario.y_train 32
                    Scenario.quarter (of_Z 0) None Scenario.start))))
  = (fst (train_batches (B := Linear.backend) 0
            [((3%nat, [of_Z 1]), (1%nat, [of_Z (-8)]))] (of_Z 0)
            (fst (model_train
                    (fst (prepare (B := Linear.backend) Scenario.X_train
                            Scenario.y_train 32 Scenario.quarter (of_Z 0) None
                            Scenario.start))))),
     OK (of_Z 64)).
Proof.
  assert (H : snd (train_batches (B := Linear.backend) 0
                     [((3%nat, [of_Z 1]), (1%nat, [of_Z (-8)]))] (of_Z 0)
                     (fst (model_train
                             (fst (prepare (B := Linear.backend) Scenario.X_train
                                     Scenario.y_train 32 Scenario.quarter (of_Z 0) None
                                     Scenario.start)))))
              = OK (of_Z 64)) by reflexivity.
  rewrite <- H. apply surjective_pairing.
Qed.

Lemma validation_split_is_not_validated_witness :
  exists w' r later,
    Scenario.fit Scenario.X_train Scenario.y_train
      [("x"%string, FloatSeries [nan])] (FloatSeries [inf]) 3 2 = (w', r)
    /\ trace w' = [DeviceResolved cpu; TensorBuilt (numeric_array 2 [NInt 1]);
                   TensorBuilt (numeric_array 1 [NInt (-8)]);
                   ZeroGrad; ForwardPass; BackwardPass; OptimizerStep] ++ later
    /\ [TensorBuilt (numeric_array 2 [NFloat nan]);
        TensorBuilt (numeric_array 1 [NFloat inf]);
        ForwardPass; MetricsComputed (B := Linear.backend) (1%nat, [inf]) [nan]]
       `prefix_of` later.
Proof.
  destruct (validation_split_is_not_validated (B := Linear.backend)
              Scenario.X_train Scenario.y_train 3 32 Scenario.quarter 2 (of_Z 0) None
              Scenario.start _ _ _ _
              eq_refl eq_refl scenario_preparation scenario_first_epoch
              ltac:(discriminate)
              [("x"%string, FloatSeries [nan])] (FloatSeries [inf]))
    as (w' & r & later & Hrun & Htrace & Hmetrics & _).
  exists w', r, later. split; [exact Hrun|]. split; [exact Htrace|].
  apply (Hmetrics (2%nat, [nan]) (1%nat, [inf]) [nan]); reflexivity.
Defined.

(** * Further properties of the code *)

(** ** The validator *)

(** X1. [check_data_types] returns normally exactly when no feature column
    and not the target has dtype [object]. *)
Theorem check_data_types_passes_iff X y :
  check_data_types X y = OK tt
  <-> Forall (fun c => dtype c.2 <> "object"%string) X /\ dtype y <> "object"%string.
Proof.
  unfold check_data_types. split.
  - intros H. assert (Hcols : check_columns X = OK tt /\ dtype y <> "object"%string).
    { destruct (check_columns X) as [[]|e]; [|discriminate]. simpl in H.
      split; [reflexivity|]. intros Hy. rewrite Hy in H. discriminate. }
    destruct Hcols as [Hcols Hy]. split; [|exact Hy]. clear H Hy.
    induction X as [|[column s] rest IH]; [constructor|].
    simpl in Hcols. destruct (String.eqb (dtype s) "object") eqn:Hs; [discriminate|].
    constructor; [|auto]. simpl. now apply String.eqb_neq.
  - intros [HX Hy].
    assert (Hcols : check_columns X = OK tt).
    { induction HX as [|[column s] rest Hs _ IH]; [reflexivity|].
      simpl in *. apply String.eqb_neq in Hs. now rewrite Hs. }
    rewrite Hcols. simpl. apply String.eqb_neq in Hy. now rewrite Hy.
Qed.

(** X2. The features are checked in column order and before the target: the
    error names the first feature column of dtype [object], whatever comes
    after it and whatever the target is. *)
Theorem check_data_types_names_first_object_column X y before column s after :
  X = before ++ (column, s) :: after ->
  Forall (fun c => dtype c.2 <> "object"%string) before ->
  dtype s = "object"%string ->
  check_data_types X y = Raise (ValueError (NonNumericColumn column)).
Proof.
  intros -> Hbefore Hs. unfold check_data_types.
  assert (Hcols : check_columns (before ++ (column, s) :: after)
                  = Raise (ValueError (NonNumericColumn column))).
  { induction Hbefore as [|[c s'] rest Hs' _ IH]; simpl.
    - now rewrite Hs.
    - simpl in Hs'. apply String.eqb_neq in Hs'. now rewrite Hs'. }
  now rewrite Hcols.
Qed.

Lemma check_data_types_names_first_object_column_witness :
  check_data_types
    [("age"%string, IntSeries [21; 30]);
     ("club"%string, ObjectSeries [PyStr "Roma"; PyStr "Lecce"]);
     ("agent"%string, ObjectSeries [PyNone; PyStr "x"])]
    (ObjectSeries [PyStr "high"; PyStr "low"])
  = Raise (ValueError (NonNumericColumn "club")).
Proof.
  apply (check_data_types_names_first_object_column _ _
           [("age"%string, IntSeries [21; 30])] "club"
           (ObjectSeries [PyStr "Roma"; PyStr "Lecce"])
           [("agent"%string, ObjectSeries [PyNone; PyStr "x"])]).
  - reflexivity.
  - repeat constructor. discriminate.
  - reflexivity.
Defined.

(** X3. On a table whose columns all have a numeric dtype the NaN check comes
    first: the error is "NaN values detected" exactly when a NaN is present,
    also beside infinite values; it is "Infinite values detected" exactly
    when an infinite value is present and no NaN is; otherwise nothing is
    raised. *)
Theorem check_for_nan_inf_reports_nan_first X y :
  numeric_frame X = true -> numeric_dtype y = true ->
  (check_for_nan_inf X y = Raise (ValueError NaNValuesDetected)
   <-> contains_nan X y = true)
  /\ (check_for_nan_inf X y = Raise (ValueError InfiniteValuesDetected)
      <-> contains_nan X y = false /\ contains_inf X y = true)
  /\ (check_for_nan_inf X y = OK tt
      <-> contains_nan X y = false /\ contains_inf X y = false).
Proof.
  intros HX Hy. rewrite (check_for_nan_inf_numeric X y HX Hy).
  destruct (contains_nan X y), (contains_inf X y); intuition congruence.
Qed.

Lemma check_for_nan_inf_reports_nan_first_witness :
  check_for_nan_inf [("x"%string, FloatSeries [inf; of_Z 1])] (FloatSeries [of_Z 2; nan])
  = Raise (ValueError NaNValuesDetected).
Proof.
  apply (check_for_nan_inf_reports_nan_first
           [("x"%string, FloatSeries [inf; of_Z 1])] (FloatSeries [of_Z 2; nan])
           eq_refl eq_refl).
  reflexivity.
Defined.

Lemma frame_values_not_numeric X :
  numeric_frame X = false -> exists data, frame_values X = object_array 2 data.
Proof.
  induction X as [|[column s] rest IH]; [discriminate|].
  simpl. intros H. apply andb_false_iff in H as [Hs|Hrest].
  - destruct s; try discriminate; simpl; destruct (frame_values rest); eauto.
  - destruct (IH Hrest) as [data ->]. destruct (series_values s); eauto.
Qed.

(** X4. A feature column that is not numeric and escaped the type check (one
    of the string dtype) stops the integrity check with numpy's [TypeError],
    unless a missing value is found first: [np.isfinite] is applied to the
    whole of [X.values]. *)
Theorem check_for_nan_inf_fails_on_text_column X y :
  numeric_frame X = false ->
  any (frame_isnull X) || any (isnull y) = false ->
  check_for_nan_inf X y
  = Raise (TypeError "ufunc 'isfinite' not supported for the input types").
Proof.
  intros HX Hnull. unfold check_for_nan_inf. rewrite Hnull.
  destruct (frame_values_not_numeric X HX) as [data ->]. reflexivity.
Qed.

Lemma check_for_nan_inf_fails_on_text_column_witness :
  check_data_types Scenario.positions Scenario.market_values = OK tt
  /\ check_for_nan_inf Scenario.positions Scenario.market_values
     = Raise (TypeError "ufunc 'isfinite' not supported for the input types").
Proof.
  split; [reflexivity|].
  apply (check_for_nan_inf_fails_on_text_column Scenario.positions Scenario.market_values);
    reflexivity.
Defined.

(** ** The effects of a run *)

Section RunFacts.

Context {B : Backend}.

Implicit Types (w : World B) (st : LoopState).

Lemma optimizer_steps_app (t t' : list (Event B)) :
  optimizer_steps (t ++ t') = (optimizer_steps t + optimizer_steps t')%nat.
Proof. unfold optimizer_steps. now rewrite List.filter_app, length_app. Qed.

Ltac effects_done :=
  simpl; rewrite ?optimizer_steps_app; unfold optimizer_steps; simpl;
  repeat split; auto;
  try lia; try (intros ? ?; discriminate).

(** What the evaluator does to the model, whatever its outcome. *)
Lemma evaluate_model_effects X_val y_val device w w' r :
  evaluate_model X_val y_val device w = (w', r) ->
  model_device w' = resolve_device B device
  /\ grad w' = grad w /\ optimizer w' = optimizer w /\ history w' = history w
  /\ optimizer_steps (trace w') = optimizer_steps (trace w)
  /\ (forall metrics, r = OK metrics -> training w' = false).
Proof.
  unfold evaluate_model, model_to, to_tensor, model_eval, model_call, forward_mode, draw,
    bind, lift, ret, emit, set_training. simpl.
  destruct (decide _) as [Hd|Hd]; [|destruct (move_parameters _ _)]; simpl;
    (destruct (FloatTensor B (frame_values X_val)); simpl;
       [|intros [= <- <-]; effects_done]);
    (destruct (FloatTensor B (series_values y_val)); simpl;
       [|intros [= <- <-]; effects_done]);
    (destruct (forward B None _ _); simpl;
       [|intros [= <- <-]; effects_done]);
    (destruct (mean_squared_error B _ _); simpl;
       [|intros [= <- <-]; effects_done]);
    (destruct (r2_score B _ _); simpl;
       intros [= <- <-]; effects_done).
Qed.

Lemma train_batch_steps epoch batch w w' loss :
  train_batch epoch batch w = (w', OK loss) ->
  optimizer_steps (trace w') = S (optimizer_steps (trace w)).
Proof.
  unfold train_batch, zero_grad, model_call, forward_mode, draw, set_generator,
    loss_backward, optimizer_step, bind, ret, raise, emit, set_grad. simpl.
  destruct (training w); simpl;
    (destruct (forward B _ _ batch.1) as [o|what]; simpl; [|discriminate]);
    (destruct (isnan _ || isinf _); simpl; [discriminate|]);
    (destruct (optimizer w) as [o'|]; simpl;
       [destruct (Adam_step B o' _ _) as [o2 vals]; simpl|]);
    intros [= <- _]; simpl; rewrite !optimizer_steps_app;
    unfold optimizer_steps; simpl; lia.
Qed.

Lemma train_batches_steps epoch batches total w w' total' :
  train_batches epoch batches total w = (w', OK total') ->
  optimizer_steps (trace w') = (optimizer_steps (trace w) + length batches)%nat.
Proof.
  revert total w. induction batches as [|batch rest IH]; intros total w; simpl.
  - intros [= <- _]. lia.
  - intros H. bind_split H as w1 loss H1.
    apply train_batch_steps in H1. apply IH in H. lia.
Qed.

(** One executed epoch: its effect on the mode and on the optimizer steps. *)
Lemma epoch_body_effects train_loader X_val y_val device epochs patience epoch st w w' r :
  epoch_body train_loader X_val y_val device epochs patience epoch st w = (w', OK r) ->
  training w' = false
  /\ optimizer_steps (trace w')
     = (optimizer_steps (trace w) + length (loader_iter B train_loader epoch))%nat.
Proof.
  intros H. unfold epoch_body in H.
  bind_split H as w1 u1 H1. unfold model_train, set_training in H1.
  injection H1 as <- <-.
  bind_split H as w2 total H2. apply train_batches_steps in H2. simpl in H2.
  bind_split H as w3 avg H3.
  assert (w3 = w2) as ->.
  { destruct (loader_len B train_loader =? 0); [discriminate|].
    now injection H3 as <- _. }
  clear H3.
  bind_split H as w4 metrics H4.
  apply evaluate_model_effects in H4 as (_ & _ & _ & _ & Hsteps & Hmode).
  specialize (Hmode _ eq_refl).
  bind_split H as w5 u5 H5. unfold note_epoch, record_epoch in H5.
  injection H5 as <- <-.
  bind_split H as w6 st6 H6.
  apply (early_stopping_spec patience) in H6 as [-> _].
  destruct (patience <=? epochs_no_improve st6).
  - injection H as <- _. simpl. split; [exact Hmode|lia].
  - bind_split H as w7 u7 H7. injection H as <- _.
    destruct (_ || _ || _); [unfold emit in H7|unfold ret in H7];
      injection H7 as <- _; simpl; rewrite ?optimizer_steps_app;
      unfold optimizer_steps in *; simpl;
      (split; [exact Hmode|lia]).
Qed.

(** The loop: the mode it leaves the model in, and one optimizer step for
    every batch of every executed epoch. *)
Lemma epochs_loop_effects train_loader X_val y_val device epochs patience range :
  forall st w w' st',
  model_device w = device ->
  epochs_loop train_loader X_val y_val device epochs patience range st w
    = (w', OK st') ->
  exists recs,
    history w' = history w ++ recs
    /\ (recs = [] -> w' = w)
    /\ (recs <> [] -> training w' = false)
    /\ optimizer_steps (trace w')
       = (optimizer_steps (trace w) + batches_trained train_loader recs)%nat.
Proof.
  induction range as [|epoch rest IH]; intros st w w' st' Hd H.
  - injection H as <- <-. exists []. rewrite app_nil_r.
    unfold batches_trained. simpl. repeat split; [congruence|lia].
  - simpl in H. bind_split H as w1 r H1. destruct r as [st1 brk].
    pose proof (epoch_body_effects _ _ _ _ _ _ _ _ _ _ _ H1) as [Hmode Hsteps].
    apply epoch_body_spec in H1 as (_ & Hd1 & v & Hh1 & _); [|exact Hd].
    simpl in H. destruct brk.
    + injection H as <- <-. eexists [_]. split; [exact Hh1|].
      repeat split; [discriminate|auto|]. unfold batches_trained. simpl. lia.
    + apply IH in H as (recs & Hh & Hnone & Hm & Hs); [|exact Hd1].
      eexists (_ :: recs). split; [rewrite Hh, Hh1, <- app_assoc; reflexivity|].
      repeat split; [discriminate| |].
      * intros _. destruct recs as [|r recs]; [|apply Hm; discriminate].
        now rewrite (Hnone eq_refl).
      * unfold batches_trained in *. rewrite fmap_cons. simpl. lia.
Qed.

Lemma prepare_effects X_train y_train batch_size learning_rate weight_decay device
    w w' setup :
  prepare X_train y_train batch_size learning_rate weight_decay device w
    = (w', OK setup) ->
  setup.1 = resolve_device B device
  /\ optimizer_steps (trace w') = optimizer_steps (trace w).
Proof.
  unfold prepare, to_tensor, model_to, bind, lift, ret, emit, set_optimizer. simpl.
  destruct (decide _); [|destruct (move_parameters _ _)]; simpl;
    (destruct (FloatTensor B (frame_values X_train)); simpl; [|discriminate]);
    (destruct (FloatTensor B (series_values y_train)); simpl; [|discriminate]);
    (destruct (TensorDataset B _ _); simpl; [|discriminate]);
    (destruct (DataLoader B _ _); simpl; [|discriminate]);
    intros [= <- <-]; effects_done.
Qed.

Lemma restore_effects st w w' r :
  restore st w = (w', r) ->
  parameters w' = parameters w /\ training w' = training w
  /\ model_device w' = model_device w
  /\ optimizer_steps (trace w') = optimizer_steps (trace w)
  /\ (forall sd, r = OK sd -> sd = parameters w').
Proof.
  unfold restore, load_state_dict, state_dict, bind, ret, raise, emit.
  destruct (best_model_state st) as [sd|]; simpl.
  - destruct (copy_parameters _ _ _) as [h|e']; simpl; intros [= <- <-];
      effects_done. now intros sd' [= <-].
  - intros [= <- <-]. effects_done.
Qed.

(** A completed run: what it went through and what it leaves. *)
Lemma train_model_completed X_train y_train X_val y_val
    epochs batch_size learning_rate patience weight_decay device w w' sd :
  train_model X_train y_train X_val y_val epochs batch_size learning_rate
    patience weight_decay device w = (w', OK sd) ->
  exists w1 setup st recs,
    prepare X_train y_train batch_size learning_rate weight_decay device w
      = (w1, OK setup)
    /\ history w' = history w ++ recs
    /\ recs <> []
    /\ loop_path patience (parameters w1) (seq 0 (Z.to_nat epochs)) initial_state
         (rec_val_mse <$> recs) st
    /\ rec_epoch <$> recs = take (length recs) (seq 0 (Z.to_nat epochs))
    /\ training w' = false
    /\ model_device w' = resolve_device B device
    /\ sd = parameters w'
    /\ sd.*1 = (parameters w).*1
    /\ optimizer_steps (trace w')
       = (optimizer_steps (trace w) + batches_trained setup.2 recs)%nat.
Proof.
  intros H.
  apply train_model_cases in H
    as [(e & _ & _ & [=])|(_ & [(e & _ & [=])|(w1 & setup & Hprep & H)])].
  destruct H as [(e & _ & [=])|(w2 & st & Hloop & Hrestore)].
  exists w1, setup, st.
  pose proof (prepare_effects _ _ _ _ _ _ _ _ _ Hprep) as (Hdev & Hsteps1).
  pose proof (prepare_spec _ _ _ _ _ _ _ _ _ Hprep) as (Hd1 & Hn1 & Hh1).
  pose proof (epochs_loop_effects _ _ _ _ _ _ _ _ _ _ _ Hd1 Hloop)
    as (recs' & Hh' & Hnone & Hmode & Hsteps2).
  apply epochs_loop_spec in Hloop as (Hp2 & Hd2 & recs & Hh2 & Hpath & Hep & _);
    [|exact Hd1].
  assert (recs' = recs) as -> by (rewrite Hh2 in Hh'; now apply app_inv_head in Hh').
  pose proof (restore_outcome _ _ _ _ Hrestore) as [Hh3 _].
  pose proof (restore_effects _ _ _ _ Hrestore) as (Hp3 & Hm3 & Hd3 & Hsteps3 & Hsd).
  assert (Hrecs : recs <> []).
  { intros ->. simpl in Hpath. apply loop_path_no_epoch in Hpath. subst st.
    unfold restore, bind, raise in Hrestore. simpl in Hrestore. discriminate. }
  pose proof (Hsd _ eq_refl) as ->.
  exists recs.
  split; [exact Hprep|]. split; [congruence|]. split; [exact Hrecs|].
  split; [exact Hpath|]. split; [exact Hep|].
  split; [rewrite Hm3; auto|]. split; [congruence|]. split; [reflexivity|].
  split; [rewrite Hp3, Hp2; exact Hn1|lia].
Qed.

End RunFacts.

(** ** The evaluator *)

(** X5. The evaluator always computes in evaluation mode, from the
    parameter values alone: two models with the same parameter values get the
    same outcome on the same data, whatever mode the caller left each in and
    whatever their gradients, optimizer and storages are. *)
Theorem evaluate_model_depends_on_values_only {B : Backend} X_val y_val device
    (w1 w2 : World B) :
  well_formed w1 -> well_formed w2 ->
  param_values w1 = param_values w2 ->
  snd (evaluate_model X_val y_val device w1) = snd (evaluate_model X_val y_val device w2).
Proof.
  intros Hwf1 Hwf2 Hvalues.
  destruct (evaluate_model_spec X_val y_val device w1 Hwf1) as (w1' & -> & _).
  destruct (evaluate_model_spec X_val y_val device w2 Hwf2) as (w2' & -> & _).
  simpl. now rewrite Hvalues.
Qed.

Lemma evaluate_model_depends_on_values_only_witness :
  snd (evaluate_model Scenario.X_val Scenario.y_val None (Linear.fresh_world (of_Z 3)))
  = snd (evaluate_model Scenario.X_val Scenario.y_val None
           (@mkWorld Linear.backend [of_Z 7; of_Z 3] [("weight"%string, 1%nat)]
              false cpu (Some (of_Z 5)) (Some (of_Z 1)) 4%nat [] [])).
Proof.
  apply (evaluate_model_depends_on_values_only (B := Linear.backend)).
  - repeat constructor.
  - repeat constructor.
  - reflexivity.
Defined.

(** X6. What the evaluator does to the model: whatever the outcome, the
    model is left on the device resolved from the argument, its gradients,
    its optimizer and the epoch records are untouched, and the optimizer has
    taken no step; when the evaluator returns, the model is in evaluation
    mode. *)
Theorem evaluate_model_side_effects {B : Backend} X_val y_val device (w w' : World B) r :
  evaluate_model X_val y_val device w = (w', r) ->
  model_device w' = resolve_device B device
  /\ grad w' = grad w /\ optimizer w' = optimizer w /\ history w' = history w
  /\ optimizer_steps (trace w') = optimizer_steps (trace w)
  /\ (forall metrics, r = OK metrics -> training w' = false).
Proof. apply evaluate_model_effects. Qed.

Lemma evaluate_model_side_effects_witness :
  training (Linear.fresh_world (of_Z 3)) = true
  /\ training (fst (evaluate_model Scenario.X_val Scenario.y_val None
                      (Linear.fresh_world (of_Z 3)))) = false.
Proof.
  split; [reflexivity|].
  eapply (proj2 (proj2 (proj2 (proj2 (proj2
            (evaluate_model_side_effects (B := Linear.backend)
               Scenario.X_val Scenario.y_val None (Linear.fresh_world (of_Z 3)) _ _
               (surjective_pairing _))))))).
  apply evaluate_weight_three.
Defined.

(** ** The trainer *)

(** X7. A completed run leaves the caller's model in evaluation mode (the
    last call on it is the [model.eval()] of the last epoch's evaluation) and
    on the device resolved from the argument; what it returns is the state
    dict of the model itself, with the names the model's parameters had
    before the call. *)
Theorem train_model_leaves_model_in_eval_mode {B : Backend} X_train y_train X_val y_val
    epochs batch_size learning_rate patience weight_decay device (w w' : World B) sd :
  train_model X_train y_train X_val y_val epochs batch_size learning_rate
    patience weight_decay device w = (w', OK sd) ->
  training w' = false
  /\ model_device w' = resolve_device B device
  /\ sd = parameters w'
  /\ sd.*1 = (parameters w).*1.
Proof.
  intros H. apply train_model_completed in H
    as (w1 & setup & st & recs & _ & _ & _ & _ & _ & Hm & Hd & Hsd & Hn & _).
  auto.
Qed.

Lemma train_model_leaves_model_in_eval_mode_witness :
  training Scenario.start = true
  /\ training (fst (Scenario.fit Scenario.X_train Scenario.y_train
                      Scenario.X_val Scenario.y_val 5 2)) = false.
Proof.
  split; [reflexivity|].
  exact (proj1 (train_model_leaves_model_in_eval_mode (B := Linear.backend)
                  Scenario.X_train Scenario.y_train Scenario.X_val Scenario.y_val
                  5 32 Scenario.quarter 2 (of_Z 0) None Scenario.start _ _
                  stalled_run)).
Defined.

(** X8. In a completed run the optimizer takes exactly one step for every
    batch of every executed epoch: the evaluations, the preparation and the
    restore step take none. *)
Theorem one_optimizer_step_per_batch {B : Backend} X_train y_train X_val y_val
    epochs batch_size learning_rate patience weight_decay device
    (w w' w1 : World B) sd setup recs :
  train_model X_train y_train X_val y_val epochs batch_size learning_rate
    patience weight_decay device w = (w', OK sd) ->
  prepare X_train y_train batch_size learning_rate weight_decay device w
    = (w1, OK setup) ->
  history w' = history w ++ recs ->
  optimizer_steps (trace w')
  = (optimizer_steps (trace w) + batches_trained setup.2 recs)%nat.
Proof.
  intros H Hprep Hhist. apply train_model_completed in H
    as (w1' & setup' & st & recs' & Hprep' & Hh & _ & _ & _ & _ & _ & _ & _ & Hsteps).
  rewrite Hprep in Hprep'. injection Hprep' as <- <-.
  rewrite Hh in Hhist. apply app_inv_head in Hhist. now subst recs'.
Qed.

Lemma stalled_preparation :
  prepare (B := Linear.backend) Scenario.X_train Scenario.y_train 32 Scenario.quarter
    (of_Z 0) None Scenario.start
  = (fst (prepare (B := Linear.backend) Scenario.X_train Scenario.y_train 32
            Scenario.quarter (of_Z 0) None Scenario.start),
     OK (cpu, [((3%nat, [of_Z 1]), (1%nat, [of_Z (-8)]))])).
Proof. reflexivity. Qed.

Lemma one_optimizer_step_per_batch_witness :
  optimizer_steps (trace (fst (Scenario.fit Scenario.X_train Scenario.y_train
                                 Scenario.X_val Scenario.y_val 5 2))) = 3%nat.
Proof.
  exact (one_optimizer_step_per_batch (B := Linear.backend)
           Scenario.X_train Scenario.y_train Scenario.X_val Scenario.y_val
           5 32 Scenario.quarter 2 (of_Z 0) None Scenario.start _ _ _ _
           [Scenario.epoch_record 0 16 (-4); Scenario.epoch_record 1 36 (-6);
            Scenario.epoch_record 2 49 (-7)]
           stalled_run stalled_preparation stalled_history).
Defined.

(** With a patience that is not positive the test
    [epochs_no_improve >= patience] holds after any epoch. *)
Lemma loop_path_impatient patience sd range st vs st' :
  patience <= 0 -> 0 <= epochs_no_improve st ->
  loop_path patience sd range st vs st' -> (length vs <= 1)%nat.
Proof.
  intros Hp Hk. destruct 1 as [st|epoch rest st v st' Hn|epoch rest st v st1 vs st' Hn _];
    simpl; [lia|lia|].
  destruct (lt v (best_val_loss st)) eqn:Hlt.
  - apply (next_state_improved _ _ _ _ _ _ Hlt) in Hn as (_ & _ & _ & Hb).
    symmetry in Hb. apply Z.leb_gt in Hb. lia.
  - apply (next_state_stagnant _ _ _ _ _ _ Hlt) in Hn as (_ & _ & _ & Hb).
    symmetry in Hb. apply Z.leb_gt in Hb. lia.
Qed.

(** X9. With [patience <= 0] a completed run has executed the first epoch
    only, whatever its validation MSE and however many epochs were asked for:
    the early stop triggers right after it, even though it improved. *)
Theorem no_patience_stops_after_first_epoch {B : Backend} X_train y_train X_val y_val
    epochs batch_size learning_rate patience weight_decay device
    (w w' : World B) sd recs :
  patience <= 0 ->
  train_model X_train y_train X_val y_val epochs batch_size learning_rate
    patience weight_decay device w = (w', OK sd) ->
  history w' = history w ++ recs ->
  exists r, recs = [r] /\ rec_epoch r = 0%nat.
Proof.
  intros Hp H Hhist. apply train_model_completed in H
    as (w1 & setup & st & recs' & _ & Hh & Hne & Hpath & Hep & _).
  rewrite Hh in Hhist. apply app_inv_head in Hhist. subst recs'.
  apply loop_path_impatient in Hpath; [|exact Hp|simpl; lia].
  rewrite length_fmap in Hpath.
  destruct recs as [|r [|r' recs]]; [congruence| |simpl in Hpath; lia].
  exists r. split; [reflexivity|].
  simpl in Hep. destruct (seq 0 (Z.to_nat epochs)) as [|e range] eqn:Hseq;
    [discriminate|].
  injection Hep as ->. destruct (Z.to_nat epochs); [discriminate|].
  simpl in Hseq. now injection Hseq as <- _.
Qed.

Lemma impatient_run :
  Scenario.fit Scenario.X_train Scenario.y_train Scenario.X_val Scenario.y_val 5 0
  = (fst (Scenario.fit Scenario.X_train Scenario.y_train
            Scenario.X_val Scenario.y_val 5 0),
     OK [("weight"%string, 0%nat)]).
Proof.
  assert (H : snd (Scenario.fit Scenario.X_train Scenario.y_train
                     Scenario.X_val Scenario.y_val 5 0)
              = OK [("weight"%string, 0%nat)]) by reflexivity.
  rewrite <- H. apply surjective_pairing.
Qed.

Lemma impatient_history :
  history (fst (Scenario.fit Scenario.X_train Scenario.y_train
                  Scenario.X_val Scenario.y_val 5 0))
  = history Scenario.start ++ [Scenario.epoch_record 0 16 (-4)].
Proof. reflexivity. Qed.

Lemma no_patience_stops_after_first_epoch_witness :
  exists r, [Scenario.epoch_record 0 16 (-4)] = [r] /\ rec_epoch r = 0%nat.
Proof.
  refine (no_patience_stops_after_first_epoch (B := Linear.backend)
            Scenario.X_train Scenario.y_train Scenario.X_val Scenario.y_val
            5 32 Scenario.quarter 0 (of_Z 0) None Scenario.start _ _ _
            _ impatient_run impatient_history).
  lia.
Defined.

(** While every epoch improves on the best value so far and the patience is
    positive, the loop never breaks. *)
Lemma loop_path_improving patience sd range st vs st' :
  1 <= patience ->
  loop_path patience sd range st vs st' ->
  improving (best_val_loss st) vs ->
  length vs = length range.
Proof.
  intros Hp.
  induction 1 as [st|epoch rest st v st' Hn|epoch rest st v st1 vs st' Hn _ IH];
    simpl; intros Himp.
  - reflexivity.
  - destruct Himp as [Hlt _].
    apply (next_state_improved _ _ _ _ _ _ Hlt) in Hn as (_ & _ & _ & Hb).
    symmetry in Hb. apply Z.leb_le in Hb. lia.
  - destruct Himp as [Hlt Himp].
    apply (next_state_improved _ _ _ _ _ _ Hlt) in Hn as (Hbest & _).
    rewrite Hbest in IH. now rewrite (IH Himp).
Qed.

(** X10. With a patience of at least one, a completed run in which every
    epoch's validation MSE is strictly below the previous one (the first
    below [+inf]) executes all [epochs] epochs: the early stop never
    triggers. *)
Theorem improving_run_executes_all_epochs {B : Backend} X_train y_train X_val y_val
    epochs batch_size learning_rate patience weight_decay device
    (w w' : World B) sd recs :
  1 <= patience ->
  train_model X_train y_train X_val y_val epochs batch_size learning_rate
    patience weight_decay device w = (w', OK sd) ->
  history w' = history w ++ recs ->
  improving inf (rec_val_mse <$> recs) ->
  length recs = Z.to_nat epochs.
Proof.
  intros Hp H Hhist Himp. apply train_model_completed in H
    as (w1 & setup & st & recs' & _ & Hh & _ & Hpath & _).
  rewrite Hh in Hhist. apply app_inv_head in Hhist. subst recs'.
  apply (loop_path_improving _ _ _ _ _ _ Hp) in Hpath; [|exact Himp].
  now rewrite length_fmap, length_seq in Hpath.
Qed.

(** A run whose validation target is the training target: the validation
    MSE falls from epoch to epoch. *)
Lemma improving_run :
  Scenario.fit Scenario.X_train Scenario.y_train Scenario.X_val (IntSeries [-8]) 3 1
  = (fst (Scenario.fit Scenario.X_train Scenario.y_train
            Scenario.X_val (IntSeries [-8]) 3 1),
     OK [("weight"%string, 0%nat)]).
Proof.
  assert (H : snd (Scenario.fit Scenario.X_train Scenario.y_train
                     Scenario.X_val (IntSeries [-8]) 3 1)
              = OK [("weight"%string, 0%nat)]) by reflexivity.
  rewrite <- H. apply surjective_pairing.
Qed.

Lemma improving_history :
  history (fst (Scenario.fit Scenario.X_train Scenario.y_train
                  Scenario.X_val (IntSeries [-8]) 3 1))
  = history Scenario.start ++
    [Scenario.epoch_record 0 16 (-4); Scenario.epoch_record 1 4 (-6);
     Scenario.epoch_record 2 1 (-7)].
Proof. reflexivity. Qed.

Lemma improving_run_executes_all_epochs_witness :
  length [Scenario.epoch_record 0 16 (-4); Scenario.epoch_record 1 4 (-6);
          Scenario.epoch_record 2 1 (-7)] = Z.to_nat 3.
Proof.
  refine (improving_run_executes_all_epochs (B := Linear.backend)
            Scenario.X_train Scenario.y_train Scenario.X_val (IntSeries [-8])
            3 32 Scenario.quarter 1 (of_Z 0) None Scenario.start _ _ _
            _ improving_run improving_history _).
  - lia.
  - simpl. repeat split; reflexivity.
Defined.

(** X11. The epochs of a completed run are numbered 0, 1, 2, ... without a
    gap; at least one was executed and at most [epochs]. *)
Theorem executed_epochs_are_consecutive {B : Backend} X_train y_train X_val y_val
    epochs batch_size learning_rate patience weight_decay device
    (w w' : World B) sd recs :
  train_model X_train y_train X_val y_val epochs batch_size learning_rate
    patience weight_decay device w = (w', OK sd) ->
  history w' = history w ++ recs ->
  rec_epoch <$> recs = seq 0 (length recs)
  /\ (1 <= length recs <= Z.to_nat epochs)%nat.
Proof.
  intros H Hhist. apply train_model_completed in H
    as (w1 & setup & st & recs' & _ & Hh & Hne & _ & Hep & _).
  rewrite Hh in Hhist. apply app_inv_head in Hhist. subst recs'.
  assert (Hlen : (length recs <= Z.to_nat epochs)%nat).
  { apply (f_equal length) in Hep.
    rewrite length_fmap, length_take, length_seq in Hep. lia. }
  rewrite take_seq, Nat.min_l in Hep by exact Hlen.
  split; [exact Hep|]. split; [|exact Hlen].
  destruct recs; [congruence|simpl; lia].
Qed.

Lemma executed_epochs_are_consecutive_witness :
  rec_epoch <$> [Scenario.epoch_record 0 16 (-4); Scenario.epoch_record 1 36 (-6);
                 Scenario.epoch_record 2 49 (-7)] = [0; 1; 2]%nat.
Proof.
  exact (proj1 (executed_epochs_are_consecutive (B := Linear.backend)
                  Scenario.X_train Scenario.y_train Scenario.X_val Scenario.y_val
                  5 32 Scenario.quarter 2 (of_Z 0) None Scenario.start _ _ _
                  stalled_run stalled_history)).
Defined.

Lemma check_for_nan_inf_raises X y e :
  check_for_nan_inf X y = Raise e ->
  DataIntegrityError e = true
  \/ e = TypeError "ufunc 'isfinite' not supported for the input types".
Proof.
  unfold check_for_nan_inf.
  destruct (any (frame_isnull X) || any (isnull y)); [intros [= <-]; now left|].
  destruct (frame_values X) as [nd data|nd data]; simpl; [|intros [= <-]; now right].
  destruct (negb (all _)); [intros [= <-]; now left|].
  destruct (series_values y) as [nd' data'|nd' data']; simpl; [|intros [= <-]; now right].
  destruct (negb (all _)); [intros [= <-]; now left|discriminate].
Qed.

(** X12. The ways [train_model] fails. Either the validation of the
    training split fails, with the error of the type check, of the integrity
    check, or numpy's [TypeError], and nothing but logging has happened yet:
    the model, its gradients, the optimizer and the generator are as they
    were, and no call into torch or scikit-learn has been made. Or the
    validation passed and the error is one of the training itself (a loss
    that is not finite, a division by zero in the mean loss, a failure
    inside a library) or the missing snapshot of the restore step. *)
Theorem train_model_failure_modes {B : Backend} X_train y_train X_val y_val
    epochs batch_size learning_rate patience weight_decay device (w w' : World B) e :
  train_model X_train y_train X_val y_val epochs batch_size learning_rate
    patience weight_decay device w = (w', Raise e) ->
  (validate X_train y_train = Raise e /\ w' = w
   /\ (validation_error e = true
       \/ e = TypeError "ufunc 'isfinite' not supported for the input types"))
  \/ (validate X_train y_train = OK tt
      /\ (training_error e = true \/ e = UnboundLocalError "best_model_state")).
Proof.
  intros H. apply train_model_cases in H
    as [(e' & Hv & -> & [= <-])|(Hv & [(e' & Hprep & [= <-])|(w1 & setup & _ & H)])].
  - left. repeat split; [exact Hv|]. unfold validate in Hv.
    destruct (check_data_types X_train y_train) as [[]|e1] eqn:Htypes; simpl in Hv.
    + apply check_for_nan_inf_raises in Hv as [Hv| ->]; [left|now right].
      unfold validation_error. rewrite Hv. apply orb_true_r.
    + injection Hv as ->. left. unfold validation_error.
      now rewrite (check_data_types_raises _ _ _ Htypes).
  - right. split; [exact Hv|]. left. now apply prepare_raises in Hprep.
  - right. split; [exact Hv|].
    destruct H as [(e' & Hloop & [= <-])|(w2 & st & _ & Hrestore)].
    + left. eapply epochs_loop_raises, Hloop.
    + apply restore_outcome in Hrestore as [_ Hfail].
      destruct (Hfail _ eq_refl) as [[_ ->]|[_ Herr]]; auto.
Qed.

Lemma train_model_failure_modes_witness :
  validate Scenario.positions Scenario.market_values
  = Raise (TypeError "ufunc 'isfinite' not supported for the input types")
  /\ validation_error (TypeError "ufunc 'isfinite' not supported for the input types")
     = false.
Proof.
  assert (Hv : validate Scenario.positions Scenario.market_values
               = Raise (TypeError "ufunc 'isfinite' not supported for the input types"))
    by reflexivity.
  destruct (train_model_failure_modes (B := Linear.backend)
              Scenario.positions Scenario.market_values Scenario.X_val Scenario.y_val
              5 32 Scenario.quarter 2 (of_Z 0) None Scenario.start Scenario.start _
              (train_model_validation_fails _ _ _ _ _ _ _ _ _ _ _ _ Hv))
    as [(H & _)|(H & _)].
  - split; [exact H|reflexivity].
  - split; [exact Hv|reflexivity].
Defined.

(** X13. The restore step changes no value: in a completed run the
    parameters of the model, and so the values of the returned state dict,
    are those recorded after the last executed epoch, whichever epoch had
    the lowest validation MSE. *)
Theorem restore_keeps_last_epoch_values {B : Backend} X_train y_train X_val y_val
    epochs batch_size learning_rate patience weight_decay device
    (w w' : World B) sd recs :
  NoDup (parameters w).*1 ->
  train_model X_train y_train X_val y_val epochs batch_size learning_rate
    patience weight_decay device w = (w', OK sd) ->
  history w' = history w ++ recs ->
  exists r, last recs = Some r
    /\ state_values (heap w') (parameters w') = rec_values r
    /\ state_values (heap w') sd = rec_values r.
Proof.
  intros Hnd H Hhist.
  destruct (train_model_returns_last_epoch _ _ _ _ _ _ _ _ _ _ _ _ _ Hnd H)
    as (recs' & r & Hh & Hlast & Hval).
  rewrite Hh in Hhist. apply app_inv_head in Hhist. subst recs'.
  apply train_model_completed in H
    as (_ & _ & _ & _ & _ & _ & _ & _ & _ & _ & _ & Hsd & _).
  exists r. repeat split; [exact Hlast| |exact Hval].
  now rewrite <- Hsd.
Qed.

Lemma restore_keeps_last_epoch_values_witness :
  exists r, last [Scenario.epoch_record 0 16 (-4); Scenario.epoch_record 1 36 (-6);
                  Scenario.epoch_record 2 49 (-7)] = Some r
    /\ state_values
         (heap (fst (Scenario.fit Scenario.X_train Scenario.y_train
                       Scenario.X_val Scenario.y_val 5 2)))
         (parameters (fst (Scenario.fit Scenario.X_train Scenario.y_train
                             Scenario.X_val Scenario.y_val 5 2))) = rec_values r
    /\ state_values (heap (fst (Scenario.fit Scenario.X_train Scenario.y_train
                                  Scenario.X_val Scenario.y_val 5 2)))
         [("weight"%string, 0%nat)] = rec_values r.
Proof.
  refine (restore_keeps_last_epoch_values (B := Linear.backend)
            Scenario.X_train Scenario.y_train Scenario.X_val Scenario.y_val
            5 32 Scenario.quarter 2 (of_Z 0) None Scenario.start _ _ _
            _ stalled_run stalled_history).
  apply NoDup_singleton.
Defined.

(** The counter grows by at most one per epoch, and the loop breaks only
    when it has reached the patience. *)
Lemma loop_path_early_stop patience sd range st vs st' :
  loop_path patience sd range st vs st' ->
  0 <= epochs_no_improve st ->
  (length vs < length range)%nat ->
  patience <= epochs_no_improve st + Z.of_nat (length vs).
Proof.
  induction 1 as [st|epoch rest st v st' Hn|epoch rest st v st1 vs st' Hn _ IH];
    simpl; intros Hk Hlen; [lia| |].
  - destruct (lt v (best_val_loss st)) eqn:Hlt.
    + apply (next_state_improved _ _ _ _ _ _ Hlt) in Hn as (_ & _ & _ & Hb).
      symmetry in Hb. apply Z.leb_le in Hb. lia.
    + apply (next_state_stagnant _ _ _ _ _ _ Hlt) in Hn as (_ & _ & _ & Hb).
      symmetry in Hb. apply Z.leb_le in Hb. lia.
  - destruct (lt v (best_val_loss st)) eqn:Hlt.
    + apply (next_state_improved _ _ _ _ _ _ Hlt) in Hn as (_ & Hc & _).
      rewrite Hc in IH. lia.
    + apply (next_state_stagnant _ _ _ _ _ _ Hlt) in Hn as (_ & Hc & _).
      rewrite Hc in IH. lia.
Qed.

(** X14. The early stop never comes before [patience] epochs have been
    executed: a completed run that executed fewer epochs than asked for
    executed at least [patience] of them. *)
Theorem early_stop_needs_patience_epochs {B : Backend} X_train y_train X_val y_val
    epochs batch_size learning_rate patience weight_decay device
    (w w' : World B) sd recs :
  train_model X_train y_train X_val y_val epochs batch_size learning_rate
    patience weight_decay device w = (w', OK sd) ->
  history w' = history w ++ recs ->
  (length recs < Z.to_nat epochs)%nat ->
  patience <= Z.of_nat (length recs).
Proof.
  intros H Hhist Hlen. apply train_model_completed in H
    as (w1 & setup & st & recs' & _ & Hh & _ & Hpath & _).
  rewrite Hh in Hhist. apply app_inv_head in Hhist. subst recs'.
  apply loop_path_early_stop in Hpath.
  - now rewrite length_fmap in Hpath.
  - simpl. lia.
  - now rewrite length_fmap, length_seq.
Qed.

Lemma early_stop_needs_patience_epochs_witness :
  2 <= Z.of_nat (length [Scenario.epoch_record 0 16 (-4); Scenario.epoch_record 1 36 (-6);
                         Scenario.epoch_record 2 49 (-7)]).
Proof.
  refine (early_stop_needs_patience_epochs (B := Linear.backend)
            Scenario.X_train Scenario.y_train Scenario.X_val Scenario.y_val
            5 32 Scenario.quarter 2 (of_Z 0) None Scenario.start _ _ _
            stalled_run stalled_history _).
  simpl. lia.
Defined.
